(** * scrape-a-ris: the job queue and the MongoDB synchroniser

    A shallow embedding of [risscraper/queue.py] (class [Queue]) and of
    [db/mongodb.py] (class [MongoDatabase]).  The MongoDB collections are
    explicit state: a collection is the list of its documents in natural
    order, every store call of the source is a function on that state, and a
    Python exception is an [Err] result that leaves the writes made so far in
    place. *)

From Stdlib Require Import ZArith NArith String List Bool Lia.
From stdpp Require Import base option list gmap strings.
Import ListNotations.

Local Open Scope string_scope.
Local Open Scope Z_scope.
Local Open Scope list_scope.

Local Set Warnings "-register-all".

(** ** Values held by documents *)

(** ObjectIds are drawn from a counter kept with each store. *)
Definition oid := N.

(** The BSON / Python values the two modules handle.  A Python 2 [str] is a
    byte string, which is what [string] is here.  A nested dict is kept as its
    list of items in ascending key order, so that structural equality is
    Python's [==] on dicts. *)
Inductive value : Type :=
  | VNone
  | VInt (z : Z)
  | VStr (s : string)
  | VTime (t : Z)
  | VOid (i : oid)
  | VRef (collection : string) (id : value)
  | VList (l : list value)
  | VDict (items : list (string * value)).

(** Python's [a == b] on these values. *)
Fixpoint value_eqb (a b : value) {struct a} : bool :=
  match a, b with
  | VNone, VNone => true
  | VInt x, VInt y => Z.eqb x y
  | VStr x, VStr y => String.eqb x y
  | VTime x, VTime y => Z.eqb x y
  | VOid x, VOid y => N.eqb x y
  | VRef c x, VRef d y => String.eqb c d && value_eqb x y
  | VList l, VList m =>
      (fix go (l m : list value) {struct l} : bool :=
         match l, m with
         | [], [] => true
         | x :: l', y :: m' => value_eqb x y && go l' m'
         | _, _ => false
         end) l m
  | VDict l, VDict m =>
      (fix go (l m : list (string * value)) {struct l} : bool :=
         match l, m with
         | [], [] => true
         | (k, x) :: l', (k', y) :: m' =>
             String.eqb k k' && value_eqb x y && go l' m'
         | _, _ => false
         end) l m
  | _, _ => false
  end.

(** [d[k]] on a nested dict. *)
Fixpoint dict_get (k : string) (items : list (string * value)) : option value :=
  match items with
  | [] => None
  | (k', v) :: rest => if String.eqb k k' then Some v else dict_get k rest
  end.

(** The exceptions the two modules can raise. *)
Inductive error : Type :=
  | KeyError (k : string)
  | TypeError
  | AssertionError
  | DuplicateKeyError.

Inductive result (A : Type) : Type :=
  | Ok (a : A)
  | Err (e : error).
Arguments Ok {A} a.
Arguments Err {A} e.

(** ** The job queue ([risscraper/queue.py]) *)

Module Queue.

(** The four strings the source writes into ['status']. *)
Inductive job_status : Type := OPEN | IN_PROGRESS | DONE | FAILED.

Definition status_str (st : job_status) : string :=
  match st with
  | OPEN => "OPEN"
  | IN_PROGRESS => "IN_PROGRESS"
  | DONE => "DONE"
  | FAILED => "FAILED"
  end.

Definition status_eqb (a b : job_status) : bool :=
  String.eqb (status_str a) (status_str b).

(** A document of the [queue] collection, with the fields [add] gives it.
    ['payload'] is the one field that may be absent. *)
Record job : Type := mkJob {
  job_id : oid;
  job_rs : string;
  job_qname : string;
  job_status_of : job_status;
  job_key : value;
  job_failures : Z;
  job_last_modified : Z;
  job_payload : option value
}.

(** The [queue] collection in natural order, and the ObjectId counter. *)
Record store : Type := mkStore {
  jobs : list job;
  next_oid : oid
}.

Definition empty : store := {| jobs := []; next_oid := 0%N |}.

Definition with_jobs (s : store) (l : list job) : store :=
  {| jobs := l; next_oid := next_oid s |}.

(** A [Queue] object: [self.name] and [self.config.RS]. *)
Record queue : Type := mkQueue {
  name : string;
  config_RS : string
}.

(** *** The pymongo calls the class makes *)

(** [find_one(query)]: the first matching document, or [None]. *)
Fixpoint find_one (query : job → bool) (l : list job) : option job :=
  match l with
  | [] => None
  | j :: rest => if query j then Some j else find_one query rest
  end.

(** [find(query).count()]. *)
Fixpoint count (query : job → bool) (l : list job) : Z :=
  match l with
  | [] => 0
  | j :: rest => (if query j then 1 else 0) + count query rest
  end.

(** [find_and_modify(query=, update=)]: the first matching document is
    updated in place and returned as it was before; nothing matches, nothing
    changes and [None] is returned (no upsert). *)
Fixpoint find_and_modify (query : job → bool) (update : job → job)
    (l : list job) : option job * list job :=
  match l with
  | [] => (None, [])
  | j :: rest =>
      if query j then (Some j, update j :: rest)
      else let '(found, rest') := find_and_modify query update rest in
           (found, j :: rest')
  end.

(** [update(spec, document)] without [multi]: the first match only. *)
Fixpoint update_first (query : job → bool) (update : job → job)
    (l : list job) : list job :=
  match l with
  | [] => []
  | j :: rest =>
      if query j then update j :: rest
      else j :: update_first query update rest
  end.

(** [remove(query)]: every matching document goes. *)
Fixpoint remove (query : job → bool) (l : list job) : list job :=
  match l with
  | [] => []
  | j :: rest => if query j then remove query rest else j :: remove query rest
  end.

(** The unique index of [__init__] on [('rs', 'qname', 'key')]. *)
Definition same_index (a b : job) : bool :=
  String.eqb (job_rs a) (job_rs b) && String.eqb (job_qname a) (job_qname b)
  && value_eqb (job_key a) (job_key b).

(** [save(job)] of a dict without ['_id']: an insert under a new ObjectId,
    refused with [DuplicateKeyError] by the unique index. *)
Definition save (mk : oid → job) (s : store) : result unit * store :=
  let j := mk (next_oid s) in
  if existsb (same_index j) (jobs s) then (Err DuplicateKeyError, s)
  else (Ok tt, {| jobs := jobs s ++ [j]; next_oid := N.succ (next_oid s) |}).

(** *** Queries and updates the methods build *)

Definition open_query (q : queue) (j : job) : bool :=
  String.eqb (job_rs j) (config_RS q) && String.eqb (job_qname j) (name q)
  && status_eqb (job_status_of j) OPEN.

Definition key_query (q : queue) (k : value) (j : job) : bool :=
  String.eqb (job_rs j) (config_RS q) && String.eqb (job_qname j) (name q)
  && value_eqb (job_key j) k.

Definition done_query (q : queue) (j : job) : bool :=
  String.eqb (job_rs j) (config_RS q) && String.eqb (job_qname j) (name q)
  && status_eqb (job_status_of j) DONE.

Definition id_query (i : oid) (j : job) : bool := N.eqb (job_id j) i.

(** [{'$set': {'status': st, 'last_modified': now}}]. *)
Definition set_status_modified (st : job_status) (now : Z) (j : job) : job :=
  {| job_id := job_id j; job_rs := job_rs j; job_qname := job_qname j;
     job_status_of := st; job_key := job_key j;
     job_failures := job_failures j; job_last_modified := now;
     job_payload := job_payload j |}.

(** [{'$inc': {'failures': 1}}], with [{'$set': {'status': 'FAILED'}}] when
    [failed] is set. *)
Definition inc_failures (failed : bool) (j : job) : job :=
  {| job_id := job_id j; job_rs := job_rs j; job_qname := job_qname j;
     job_status_of := if failed then FAILED else job_status_of j;
     job_key := job_key j;
     job_failures := job_failures j + 1;
     job_last_modified := job_last_modified j;
     job_payload := job_payload j |}.

(** The first lines of [add], [resolve_job] and [mark_failed]: a dict
    stands for the job whose key is under ['key'], anything else is the key
    itself. *)
Definition key_of (key_or_element : value) : result value :=
  match key_or_element with
  | VDict d =>
      match dict_get "key" d with
      | Some k => Ok k
      | None => Err (KeyError "key")
      end
  | k => Ok k
  end.

(** The payload [add] keeps: the dict's ['payload'] unless it is [None]. *)
Definition payload_of (key_or_element : value) : option value :=
  match key_or_element with
  | VDict d =>
      match dict_get "payload" d with
      | Some VNone => None
      | p => p
      end
  | _ => None
  end.

(** *** The methods.  [now] is what [datetime.utcnow()] returns. *)

Definition add (q : queue) (now : Z) (key_or_element : value) (s : store)
    : result unit * store :=
  match key_of key_or_element with
  | Err e => (Err e, s)
  | Ok k =>
      let job := λ i,
        {| job_id := i; job_rs := config_RS q; job_qname := name q;
           job_status_of := OPEN; job_key := k; job_failures := 0;
           job_last_modified := now;
           job_payload := payload_of key_or_element |} in
      match save job s with
      | (Err DuplicateKeyError, s') => (Ok tt, s')
      | r => r
      end
  end.

Definition get (q : queue) (now : Z) (s : store) : result value * store :=
  match find_and_modify (open_query q) (set_status_modified IN_PROGRESS now) (jobs s) with
  | (None, _) => (Err TypeError, s)
  | (Some find, l) =>
      let out :=
        match job_payload find with
        | Some p => VDict [("key", job_key find); ("payload", p)]
        | None => VDict [("key", job_key find)]
        end in
      (Ok out, with_jobs s l)
  end.

(** [__len__]. *)
Definition len (q : queue) (s : store) : Z := count (open_query q) (jobs s).

Definition has_next (q : queue) (s : store) : bool := 0 <? len q s.

Definition resolve_job (q : queue) (now : Z) (key_or_element : value) (s : store)
    : result unit * store :=
  match key_of key_or_element with
  | Err e => (Err e, s)
  | Ok k =>
      let '(_, l) := find_and_modify (key_query q k) (set_status_modified DONE now) (jobs s) in
      (Ok tt, with_jobs s l)
  end.

Definition mark_failed (q : queue) (key_or_element : value) (s : store)
    : result unit * store :=
  match key_of key_or_element with
  | Err e => (Err e, s)
  | Ok k =>
      match find_one (key_query q k) (jobs s) with
      | None => (Err TypeError, s)
      | Some job =>
          let failed := 2 <=? job_failures job in
          (Ok tt, with_jobs s (update_first (id_query (job_id job)) (inc_failures failed) (jobs s)))
      end
  end.

Definition garbage_collect (q : queue) (s : store) : result unit * store :=
  (Ok tt, with_jobs s (remove (done_query q) (jobs s))).

(** *** Sequences of calls *)

Inductive op : Type :=
  | Add (q : queue) (now : Z) (key_or_element : value)
  | Get (q : queue) (now : Z)
  | ResolveJob (q : queue) (now : Z) (key_or_element : value)
  | MarkFailed (q : queue) (key_or_element : value)
  | GarbageCollect (q : queue).

(** One call; its return value or exception is dropped, the store stays. *)
Definition step (s : store) (o : op) : store :=
  match o with
  | Add q now a => snd (add q now a s)
  | Get q now => snd (get q now s)
  | ResolveJob q now a => snd (resolve_job q now a s)
  | MarkFailed q a => snd (mark_failed q a s)
  | GarbageCollect q => snd (garbage_collect q s)
  end.

Definition run (ops : list op) (s : store) : store := fold_left step ops s.

(** The stores a program that only uses [Queue] objects can be in. *)
Definition reachable (s : store) : Prop := ∃ ops, s = run ops empty.

(** ObjectIds are never handed out twice. *)
Definition ids_below (s : store) : bool :=
  forallb (λ j, N.ltb (job_id j) (next_oid s)) (jobs s).

Fixpoint ids_unique (l : list job) : bool :=
  match l with
  | [] => true
  | j :: rest => negb (existsb (id_query (job_id j)) rest) && ids_unique rest
  end.

Definition wf (s : store) : bool := ids_below s && ids_unique (jobs s).



(** The documents of one [Queue] object: its realm and its name. *)
Definition belongs (q : queue) (j : job) : bool :=
  String.eqb (job_rs j) (config_RS q) && String.eqb (job_qname j) (name q).

(** The unique index of [__init__] holds: no two documents agree on
    ['rs'], ['qname'] and ['key']. *)
Fixpoint index_unique (l : list job) : bool :=
  match l with
  | [] => true
  | j :: rest => negb (existsb (same_index j) rest) && index_unique rest
  end.

(** The [Queue] object a call is made on. *)
Definition op_queue (o : op) : queue :=
  match o with
  | Add q _ _ | Get q _ | ResolveJob q _ _ | MarkFailed q _ | GarbageCollect q => q
  end.

(** ObjectId [i] has been handed out and no document that carries it is
    OPEN. *)
Definition closed (i : oid) (s : store) : Prop :=
  (i < next_oid s)%N ∧ ∀ j, In j (jobs s) → job_id j = i → job_status_of j ≠ OPEN.

(** The failure counter is not negative, and FAILED is only written with
    three failures or more. *)
Definition failures_sound (j : job) : Prop :=
  0 ≤ job_failures j ∧ (job_status_of j = FAILED → 3 ≤ job_failures j).

End Queue.

(** ** The synchroniser ([db/mongodb.py]) *)

Module Mongo.

(** The writes the store is asked to make, oldest first: [fs.put],
    [insert] and [update]. *)
Inductive write : Type :=
  | FsPut (id : oid) (content : string) (filename : value) (ags : string)
  | Insert (collection : string) (document : gmap string value)
  | Update (collection : string) (id : value) (set_attributes : gmap string value).

(** A document of [fs.files], with what GridFS records about a blob. *)
Record file : Type := mkFile {
  file_id : oid;
  file_length : Z;
  file_md5 : string;
  file_filename : value;
  file_ags : string
}.

(** The collections [attachments], [submissions] and [fs.files], the
    ObjectId counter and the log of writes.  The unique indexes belong to
    [setup], not to the methods below, and are not part of this state. *)
Record db : Type := mkDb {
  attachments : list (gmap string value);
  submissions : list (gmap string value);
  fs_files : list file;
  next_id : oid;
  writes : list write
}.

Definition empty : db :=
  {| attachments := []; submissions := []; fs_files := []; next_id := 0%N;
     writes := [] |}.

(** The domain objects of the scraper, by what the methods read from them:
    the attributes they access and the mapping [dict()] returns. *)
Record Attachment : Type := mkAttachment {
  identifier : value;
  filename : value;
  content : string;
  dict : gmap string value
}.

(** A submission's [dict()] is [submission_dict] with, when
    [submission_attachments] is given, the list of those [Attachment]
    objects under ['attachments']. *)
Record Submission : Type := mkSubmission {
  numeric_id : value;
  submission_dict : gmap string value;
  submission_attachments : option (list Attachment)
}.

(** *** State and exceptions *)

Definition M (A : Type) : Type := db → result A * db.

Definition ret {A} (a : A) : M A := λ s, (Ok a, s).
Definition raise {A} (e : error) : M A := λ s, (Err e, s).
Definition bind {A B} (c : M A) (k : A → M B) : M B :=
  λ s, match c s with
       | (Ok a, s') => k a s'
       | (Err e, s') => (Err e, s')
       end.
Definition gets {A} (f : db → A) : M A := λ s, (Ok (f s), s).

Notation "'let*' x ':=' c 'in' k" := (bind c (λ x, k))
  (at level 10, x name, c at level 100, k at level 200).

(** [d[k]]. *)
Definition getitem (d : gmap string value) (k : string) : M value :=
  match d !! k with
  | Some v => ret v
  | None => raise (KeyError k)
  end.

(** *** The pymongo and GridFS calls *)

Fixpoint find_one (query : gmap string value → bool)
    (l : list (gmap string value)) : option (gmap string value) :=
  match l with
  | [] => None
  | d :: rest => if query d then Some d else find_one query rest
  end.

Fixpoint update_first (query : gmap string value → bool)
    (update : gmap string value → gmap string value)
    (l : list (gmap string value)) : list (gmap string value) :=
  match l with
  | [] => []
  | d :: rest =>
      if query d then update d :: rest
      else d :: update_first query update rest
  end.

(** A query clause [{k: v}]: the field equals [v], or is missing when [v]
    is [None]. *)
Definition field_is (k : string) (v : value) (d : gmap string value) : bool :=
  match d !! k with
  | Some w => value_eqb w v
  | None => value_eqb VNone v
  end.

Definition collection (name : string) (s : db) : list (gmap string value) :=
  if String.eqb name "attachments" then attachments s
  else if String.eqb name "submissions" then submissions s
  else [].

Definition with_collection (name : string) (l : list (gmap string value))
    (s : db) : db :=
  {| attachments := if String.eqb name "attachments" then l else attachments s;
     submissions := if String.eqb name "attachments" then submissions s
                    else if String.eqb name "submissions" then l
                    else submissions s;
     fs_files := fs_files s; next_id := next_id s; writes := writes s |}.

Definition log (w : write) (s : db) : db :=
  {| attachments := attachments s; submissions := submissions s;
     fs_files := fs_files s; next_id := next_id s;
     writes := writes s ++ [w] |}.

(** [insert(doc)]: the document gets a new ObjectId unless it brings its
    own ['_id'], which must then be unused; the ['_id'] is returned. *)
Definition insert (name : string) (document : gmap string value) : M value :=
  λ s,
    let s := log (Insert name document) s in
    match document !! "_id" with
    | Some i =>
        if existsb (field_is "_id" i) (collection name s)
        then (Err DuplicateKeyError, s)
        else (Ok i, with_collection name (collection name s ++ [document]) s)
    | None =>
        let i := VOid (next_id s) in
        (Ok i,
         with_collection name (collection name s ++ [<["_id" := i]> document])
           {| attachments := attachments s; submissions := submissions s;
              fs_files := fs_files s; next_id := N.succ (next_id s);
              writes := writes s |})
    end.

(** [update({'_id': id}, {'$set': set_attributes})]: the first document
    with that ['_id'] takes the given fields; no document, no change. *)
Definition update (name : string) (id : value)
    (set_attributes : gmap string value) : M unit :=
  λ s,
    let s := log (Update name id set_attributes) s in
    (Ok tt,
     with_collection name
       (update_first (field_is "_id" id) (λ d, set_attributes ∪ d)
                     (collection name s)) s).

(** [fs.files.find_one({'_id': id})]. *)
Fixpoint files_find_one (id : value) (l : list file) : option file :=
  match l with
  | [] => None
  | f :: rest =>
      if value_eqb (VOid (file_id f)) id then Some f else files_find_one id rest
  end.

Section WithConfig.

(** [self.config.AGS], and [md5(content).hexdigest()] of [hashlib],
    which is also the ['md5'] GridFS keeps for a blob. *)
Variable AGS : string.
Variable md5_hexdigest : string → string.

(** [self.fs.put(content, filename=, ags=)]: always a new blob. *)
Definition fs_put (content : string) (filename : value) : M oid :=
  λ s,
    let i := next_id s in
    (Ok i,
     {| attachments := attachments s; submissions := submissions s;
        fs_files := fs_files s ++
          [{| file_id := i; file_length := Z.of_nat (String.length content);
              file_md5 := md5_hexdigest content; file_filename := filename;
              file_ags := AGS |}];
        next_id := N.succ i;
        writes := writes s ++ [FsPut i content filename AGS] |}).

Definition get_object (name key : string) (v : value) (s : db)
    : option (gmap string value) :=
  find_one (λ d, field_is "ags" (VStr AGS) d && field_is key v d)
           (collection name s).

(** Lines 130 to 133: the comparison of the stored blob with the
    submitted content, the length first. *)
Definition file_differs (file_stored : file) (content : string) : bool :=
  if negb (file_length file_stored =? Z.of_nat (String.length content)) then true
  else if negb (String.eqb (file_md5 file_stored) (md5_hexdigest content)) then true
  else false.


(** The loop that fills [set_attributes]: the fields of [fresh], other
    than ['last_modified'], that [stored] lacks or has with another
    value. *)
Definition changed_fields (stored fresh : gmap string value)
    : gmap string value :=
  map_imap (λ key v,
    if String.eqb key "last_modified" then None
    else match stored !! key with
         | None => Some v
         | Some w => if value_eqb w v then None else Some v
         end) fresh.

(** [save_attachment], in the order of the source: the lookup and the
    comparison with the stored blob (lines 115 to 133), the new file version
    (135 to 142), [del attachment_fresh['content']] and the realm (145, 146),
    then the insert or the partial update (148 to 176).  The verbose output
    and the [print]s change no state and are left out. *)
Definition save_attachment (attachment : Attachment) : M value :=
  let* attachment_stored :=
    gets (get_object "attachments" "identifier" (identifier attachment)) in
  let attachment_fresh := dict attachment in
  let* file_changed :=
    match attachment_stored with
    | None => ret false
    | Some stored =>
        let* file_stored :=
          match stored !! "file" with
          | None => ret None
          | Some (VRef _ id) => gets (λ s, files_find_one id (fs_files s))
          | Some _ => raise AssertionError
          end in
        ret match file_stored with
            | None => false
            | Some f => file_differs f (content attachment)
            end
    end in
  let new_version :=
    match attachment_stored with
    | None => true
    | Some stored =>
        file_changed && negb (bool_decide (is_Some (stored !! "depublication")))
    end in
  let* attachment_fresh :=
    if new_version then
      let* file_oid := fs_put (content attachment) (filename attachment) in
      ret (<["file" := VRef "fs.files" (VOid file_oid)]> attachment_fresh)
    else ret attachment_fresh in
  let* _ := getitem attachment_fresh "content" in
  let attachment_fresh := delete "content" attachment_fresh in
  let attachment_fresh := <["ags" := VStr AGS]> attachment_fresh in
  match attachment_stored with
  | None => insert "attachments" attachment_fresh
  | Some stored =>
      let* oid := getitem stored "_id" in
      let set_attributes := changed_fields stored attachment_fresh in
      let set_attributes :=
        match attachment_fresh !! "file", stored !! "file" with
        | None, Some f => <["file" := f]> set_attributes
        | _, _ => set_attributes
        end in
      let* _ :=
        if file_changed || negb (bool_decide (set_attributes = ∅)) then
          let* last_modified := getitem attachment_fresh "last_modified" in
          update "attachments" oid (<["last_modified" := last_modified]> set_attributes)
        else ret tt in
      ret oid
  end.

(** The loop of lines 187 to 192: every attachment is saved and replaced
    by a [DBRef] to its document. *)
Fixpoint save_attachments (l : list Attachment) : M (list value) :=
  match l with
  | [] => ret []
  | a :: rest =>
      let* oid := save_attachment a in
      let* refs := save_attachments rest in
      ret (VRef "attachments" oid :: refs)
  end.

(** Lines 184 to 193. *)
Definition dereference_attachments (l : option (list Attachment))
    (submission_fresh : gmap string value) : M (gmap string value) :=
  match l with
  | None => ret submission_fresh
  | Some l =>
      let* refs := save_attachments l in
      ret (<["attachments" := VList refs]> submission_fresh)
  end.

(** [d['numeric_id']] on the value under ['superordinate']. *)
Definition subscript (v : value) (k : string) : M value :=
  match v with
  | VDict d =>
      match dict_get k d with
      | Some x => ret x
      | None => raise (KeyError k)
      end
  | _ => raise TypeError
  end.

(** Lines 195 to 199. *)
Definition dereference_superordinate (submission_fresh : gmap string value)
    : M (gmap string value) :=
  match submission_fresh !! "superordinate" with
  | None => ret submission_fresh
  | Some superordinate =>
      let* n := subscript superordinate "numeric_id" in
      let* sup := gets (get_object "submissions" "numeric_id" n) in
      match sup with
      | None => ret submission_fresh
      | Some sup =>
          let* i := getitem sup "_id" in
          ret (<["superordinate" := VRef "submissions" i]> submission_fresh)
      end
  end.

(** Lines 201 to 218: the partial update of a stored submission, or the
    insert of a new one. *)
Definition store_submission (submission_stored : option (gmap string value))
    (submission_fresh : gmap string value) : M value :=
  match submission_stored with
  | Some stored =>
      let set_attributes := changed_fields stored submission_fresh in
      let* _ :=
        if negb (bool_decide (set_attributes = ∅)) then
          let* last_modified := getitem submission_fresh "last_modified" in
          let* i := getitem stored "_id" in
          update "submissions" i (<["last_modified" := last_modified]> set_attributes)
        else ret tt in
      getitem stored "_id"
  | None => insert "submissions" submission_fresh
  end.

(** [save_submission], lines 178 to 218. *)
Definition save_submission (submission : Submission) : M value :=
  let* submission_stored :=
    gets (get_object "submissions" "numeric_id" (numeric_id submission)) in
  let submission_fresh := <["ags" := VStr AGS]> (submission_dict submission) in
  let* submission_fresh :=
    dereference_attachments (submission_attachments submission) submission_fresh in
  let* submission_fresh := dereference_superordinate submission_fresh in
  store_submission submission_stored submission_fresh.

End WithConfig.

(** *** Stored submissions carry distinct ObjectIds below the counter *)

Definition id_below (nx : oid) (d : gmap string value) : bool :=
  match d !! "_id" with
  | Some (VOid i) => N.ltb i nx
  | _ => false
  end.

Fixpoint ids_unique (l : list (gmap string value)) : bool :=
  match l with
  | [] => true
  | d :: rest =>
      match d !! "_id" with
      | Some i => negb (existsb (field_is "_id" i) rest)
      | None => false
      end && ids_unique rest
  end.

Definition wf_submissions (s : db) : bool :=
  forallb (id_below (next_id s)) (submissions s) && ids_unique (submissions s).

(** The [FsPut] entries of a log. *)
Definition puts (l : list write) : list write :=
  List.filter (λ w, match w with FsPut _ _ _ _ => true | _ => false end) l.

(** *** Sample data for the examples *)

Definition sample_attachment (content : string) : Attachment :=
  {| identifier := VStr "a1"; filename := VStr "f.pdf"; content := content;
     dict := list_to_map
       [("identifier", VStr "a1"); ("filename", VStr "f.pdf");
        ("content", VStr content); ("last_modified", VTime 5)] |}.

(** The attachment document a first sync of [sample_attachment] under
    realm ["07"] leaves, after a blob put under ObjectId 0. *)
Definition sample_stored : gmap string value :=
  list_to_map
    [("_id", VOid 1%N); ("ags", VStr "07"); ("identifier", VStr "a1");
     ("filename", VStr "f.pdf"); ("file", VRef "fs.files" (VOid 0%N));
     ("last_modified", VTime 5)].

(** A store holding [stored] as its one attachment and [blobs] as its
    blobs. *)
Definition sample_db (stored : gmap string value) (blobs : list file) : db :=
  {| attachments := [stored]; submissions := []; fs_files := blobs;
     next_id := 2%N; writes := [] |}.

(** A submission 8 that names submission 7 as its superordinate. *)
Definition sample_child : Submission :=
  {| numeric_id := VInt 8;
     submission_dict := list_to_map
       [("numeric_id", VInt 8); ("identifier", VStr "S-8");
        ("superordinate", VDict [("identifier", VStr "S-7"); ("numeric_id", VInt 7)]);
        ("last_modified", VTime 5)];
     submission_attachments := None |}.

Definition sample_parent : Submission :=
  {| numeric_id := VInt 7;
     submission_dict := list_to_map
       [("numeric_id", VInt 7); ("identifier", VStr "S-7");
        ("last_modified", VTime 6)];
     submission_attachments := Some [sample_attachment "hello"] |}.

(** *** The lookups by natural key *)

Section Lookups.

Variable AGS : string.

(** [get_object_id]: the ['_id'] of the document [get_object] finds;
    Python's [None], which is [VNone] here, when it finds none or the
    document has no ['_id']. *)
Definition get_object_id (name key : string) (v : value) (s : db) : value :=
  match get_object AGS name key v s with
  | Some result =>
      match result !! "_id" with
      | Some i => i
      | None => VNone
      end
  | None => VNone
  end.

Definition attachment_exists (id : value) (s : db) : bool :=
  negb (value_eqb (get_object_id "attachments" "identifier" id s) VNone).

Definition submission_exists (id : value) (s : db) : bool :=
  negb (value_eqb (get_object_id "submissions" "numeric_id" id s) VNone).

End Lookups.

(** Stored attachments carry distinct ObjectIds below the counter, and so
    do the blobs. *)
Definition wf_attachments (s : db) : bool :=
  forallb (id_below (next_id s)) (attachments s) && ids_unique (attachments s).

Definition wf_files (s : db) : bool :=
  forallb (λ f, N.ltb (file_id f) (next_id s)) (fs_files s).

(** *** Sessions *)

(** An entry of a session's ['agendaitems']: a dict, given by its items
    other than ['submissions'] in key order, and the [Submission] objects
    under ['submissions'] when it has that key. *)
Record AgendaItem : Type := mkAgendaItem {
  agendaitem_dict : list (string * value);
  agendaitem_submissions : option (list Submission)
}.

(** A session's [dict()] is [session_dict] with the [Attachment] objects
    under ['attachments'] and the agenda items under ['agendaitems'], each
    when given. *)
Record Session : Type := mkSession {
  session_numeric_id : value;
  session_dict : gmap string value;
  session_attachments : option (list Attachment);
  session_agendaitems : option (list AgendaItem)
}.

(** The database with its [sessions] collection. *)
Record database : Type := mkDatabase {
  documents : db;
  sessions : list (gmap string value)
}.

(** [d[k] = v] on a nested dict, which stays in key order. *)
Fixpoint dict_set (k : string) (v : value) (items : list (string * value))
    : list (string * value) :=
  match items with
  | [] => [(k, v)]
  | (k', v') :: rest =>
      if String.eqb k k' then (k, v) :: rest
      else if String.ltb k k' then (k, v) :: (k', v') :: rest
      else (k', v') :: dict_set k v rest
  end.

Definition S (A : Type) : Type := database → result A * database.

Definition ret_s {A} (a : A) : S A := λ D, (Ok a, D).
Definition raise_s {A} (e : error) : S A := λ D, (Err e, D).
Definition bind_s {A B} (c : S A) (k : A → S B) : S B :=
  λ D, match c D with
       | (Ok a, D') => k a D'
       | (Err e, D') => (Err e, D')
       end.

(** A call that works on the other collections only. *)
Definition lift {A} (c : M A) : S A :=
  λ D, let '(r, s) := c (documents D) in
       (r, {| documents := s; sessions := sessions D |}).

Notation "'let+' x ':=' c 'in' k" := (bind_s c (λ x, k))
  (at level 10, x name, c at level 100, k at level 200).

Definition getitem_s (d : gmap string value) (k : string) : S value :=
  match d !! k with
  | Some v => ret_s v
  | None => raise_s (KeyError k)
  end.

(** [self.db.sessions.insert(document)]. *)
Definition insert_session (document : gmap string value) : S value :=
  λ D,
    let s := log (Insert "sessions" document) (documents D) in
    match document !! "_id" with
    | Some i =>
        if existsb (field_is "_id" i) (sessions D)
        then (Err DuplicateKeyError, {| documents := s; sessions := sessions D |})
        else (Ok i, {| documents := s; sessions := sessions D ++ [document] |})
    | None =>
        let i := VOid (next_id s) in
        (Ok i,
         {| documents :=
              {| attachments := attachments s; submissions := submissions s;
                 fs_files := fs_files s; next_id := N.succ (next_id s);
                 writes := writes s |};
            sessions := sessions D ++ [<["_id" := i]> document] |})
    end.

(** [self.db.sessions.update({'_id': id}, {'$set': set_attributes})]. *)
Definition update_session (id : value) (set_attributes : gmap string value)
    : S unit :=
  λ D,
    (Ok tt,
     {| documents := log (Update "sessions" id set_attributes) (documents D);
        sessions := update_first (field_is "_id" id) (λ d, set_attributes ∪ d)
                                 (sessions D) |}).

Section WithOptions.

Variable AGS : string.
Variable md5_hexdigest : string → string.

(** [self.options.verbose]. *)
Variable verbose : bool.

(** [get_object('sessions', key, value)]. *)
Definition get_session (key : string) (v : value) (D : database)
    : option (gmap string value) :=
  find_one (λ d, field_is "ags" (VStr AGS) d && field_is key v d) (sessions D).

(** [session_exists]. *)
Definition session_exists (id : value) (D : database) : bool :=
  match get_session "numeric_id" id D with
  | Some result =>
      match result !! "_id" with
      | Some i => negb (value_eqb i VNone)
      | None => false
      end
  | None => false
  end.

(** The inner loop of lines 242 to 247: every submission of an agenda item
    is saved and replaced by a [DBRef] to its document. *)
Fixpoint save_submissions (l : list Submission) : M (list value) :=
  match l with
  | [] => ret []
  | submission :: rest =>
      let* oid := save_submission AGS md5_hexdigest submission in
      let* refs := save_submissions rest in
      ret (VRef "submissions" oid :: refs)
  end.

(** One turn of the loop of line 239: an agenda item without
    ['submissions'] is left as it is. *)
Definition dereference_agendaitem (item : AgendaItem) : M value :=
  match agendaitem_submissions item with
  | None => ret (VDict (agendaitem_dict item))
  | Some l =>
      let* refs := save_submissions l in
      ret (VDict (dict_set "submissions" (VList refs) (agendaitem_dict item)))
  end.

Fixpoint dereference_agendaitems (l : list AgendaItem) : M (list value) :=
  match l with
  | [] => ret []
  | item :: rest =>
      let* v := dereference_agendaitem item in
      let* vs := dereference_agendaitems rest in
      ret (v :: vs)
  end.

(** Lines 228 to 247: the attachments of the session, then the submissions
    of its agenda items, are saved and replaced by references. *)
Definition dereference_session (session : Session)
    (session_dict : gmap string value) : M (gmap string value) :=
  let* session_dict :=
    dereference_attachments AGS md5_hexdigest (session_attachments session)
      session_dict in
  match session_agendaitems session with
  | None => ret session_dict
  | Some items =>
      let* vs := dereference_agendaitems items in
      ret (<["agendaitems" := VList vs]> session_dict)
  end.

(** The verbose message of line 258: ['%d'] wants a number. *)
Definition log_session_updated (session : Session)
    (session_stored : gmap string value) : S unit :=
  if verbose then
    let+ _ := getitem_s session_stored "_id" in
    match session_numeric_id session with
    | VInt _ => ret_s tt
    | _ => raise_s TypeError
    end
  else ret_s tt.

(** [save_session], lines 220 to 274. *)
Definition save_session (session : Session) : S value :=
  λ D,
    let session_stored :=
      get_session "numeric_id" (session_numeric_id session) D in
    let session_dict := <["ags" := VStr AGS]> (session_dict session) in
    (let+ session_dict := lift (dereference_session session session_dict) in
     match session_stored with
     | None => insert_session session_dict
     | Some stored =>
         let+ _ := log_session_updated session stored in
         let set_attributes := changed_fields stored session_dict in
         let+ _ :=
           if negb (bool_decide (set_attributes = ∅)) then
             let+ last_modified := getitem_s session_dict "last_modified" in
             let+ i := getitem_s stored "_id" in
             update_session i (<["last_modified" := last_modified]> set_attributes)
           else ret_s tt in
         getitem_s stored "_id"
     end) D.

End WithOptions.

Definition wf_sessions (D : database) : bool :=
  forallb (id_below (next_id (documents D))) (sessions D)
  && ids_unique (sessions D).

(** A session with one attachment and two agenda items, the second of
    which has the two sample submissions. *)
Definition sample_session : Session :=
  {| session_numeric_id := VInt 30;
     session_dict := list_to_map
       [("numeric_id", VInt 30); ("title", VStr "Rat");
        ("last_modified", VTime 9)];
     session_attachments := Some [sample_attachment "hello"];
     session_agendaitems := Some
       [mkAgendaItem [("number", VStr "1"); ("subject", VStr "Begruessung")] None;
        mkAgendaItem [("number", VStr "2"); ("subject", VStr "Vorlagen")]
                     (Some [sample_child; sample_parent])] |}.

End Mongo.

(** * Proofs *)

(** Induction on values that reaches inside lists and dicts. *)
Lemma value_ind' (P : value → Prop) :
  P VNone → (∀ z, P (VInt z)) → (∀ s, P (VStr s)) → (∀ t, P (VTime t)) →
  (∀ i, P (VOid i)) → (∀ c i, P i → P (VRef c i)) →
  (∀ l, Forall P l → P (VList l)) →
  (∀ items, Forall (λ kv, P (snd kv)) items → P (VDict items)) →
  ∀ v, P v.
Proof.
  intros HN HI HS HT HO HR HL HD.
  fix IH 1. intros [ | z | s | t | i | c i | l | items].
  - exact HN.
  - apply HI.
  - apply HS.
  - apply HT.
  - apply HO.
  - apply HR. apply IH.
  - apply HL. induction l as [|x l IHl]; constructor; [apply IH | exact IHl].
  - apply HD. induction items as [|[k x] items IHl]; constructor; [apply IH | exact IHl].
Qed.

Lemma value_eqb_eq (a b : value) : value_eqb a b = true ↔ a = b.
Proof.
  revert b. induction a as [ | z | s | t | i | c i IHi | l IHl | items IHl] using value_ind';
    intros [ | z' | s' | t' | i' | c' i' | l' | items']; simpl;
    try (split; [discriminate | congruence]); try tauto.
  - rewrite Z.eqb_eq. split; congruence.
  - rewrite String.eqb_eq. split; congruence.
  - rewrite Z.eqb_eq. split; congruence.
  - rewrite N.eqb_eq. split; congruence.
  - rewrite andb_true_iff, String.eqb_eq, IHi.
    split; [intros [-> ->]; done | intros [= -> ->]; done].
  - revert l'. induction IHl as [|x l Hx _ IH]; intros [|y l']; simpl;
      try (split; [discriminate | congruence]); try tauto.
    rewrite andb_true_iff, Hx. specialize (IH l'). split.
    + intros [-> H]. apply IH in H. congruence.
    + intros [= -> ->]. split; [done|]. apply IH. done.
  - revert items'. induction IHl as [|[k x] l Hx _ IH]; intros [|[k' y] l']; simpl;
      try (split; [discriminate | congruence]); try tauto.
    simpl in Hx. rewrite !andb_true_iff, Hx, String.eqb_eq. specialize (IH l'). split.
    + intros [[-> ->] H]. apply IH in H. congruence.
    + intros [= -> -> ->]. split; [done|]. apply IH. done.
Qed.

Lemma value_eqb_refl (a : value) : value_eqb a a = true.
Proof. by apply value_eqb_eq. Qed.

(** ** The job queue *)

Section QueueStore.
Import Queue.

Lemma status_eqb_eq (a b : job_status) : status_eqb a b = true ↔ a = b.
Proof. destruct a, b; vm_compute; split; congruence. Qed.

Lemma open_query_iff q j :
  open_query q j = true ↔
  job_rs j = config_RS q ∧ job_qname j = name q ∧ job_status_of j = OPEN.
Proof.
  unfold open_query.
  rewrite !andb_true_iff, !String.eqb_eq, status_eqb_eq. tauto.
Qed.

Lemma done_query_iff q j :
  done_query q j = true ↔
  job_rs j = config_RS q ∧ job_qname j = name q ∧ job_status_of j = DONE.
Proof.
  unfold done_query.
  rewrite !andb_true_iff, !String.eqb_eq, status_eqb_eq. tauto.
Qed.

Lemma key_query_iff q k j :
  key_query q k j = true ↔
  job_rs j = config_RS q ∧ job_qname j = name q ∧ job_key j = k.
Proof.
  unfold key_query.
  rewrite !andb_true_iff, !String.eqb_eq, value_eqb_eq. tauto.
Qed.

Lemma find_one_None query l :
  find_one query l = None ↔ ∀ j, In j l → query j = false.
Proof.
  induction l as [|a l IH]; simpl.
  - split; [intros _ j [] | done].
  - destruct (query a) eqn:Ha.
    + split; [discriminate|]. intros H. specialize (H a (or_introl eq_refl)). congruence.
    + rewrite IH. split.
      * intros H j [<-|Hj]; auto.
      * intros H j Hj. apply H. by right.
Qed.

(** Where [find_one] finds its document: nothing before it matches. *)
Lemma find_one_Some query l j :
  find_one query l = Some j →
  ∃ l1 l2, l = l1 ++ j :: l2 ∧ query j = true ∧ find_one query l1 = None.
Proof.
  induction l as [|a l IH]; simpl; [discriminate|].
  destruct (query a) eqn:Ha.
  - intros [= ->]. by exists [], l.
  - intros H. destruct (IH H) as (l1 & l2 & -> & Hq & Hn).
    exists (a :: l1), l2. simpl. by rewrite Ha.
Qed.

Lemma find_one_at query l1 j l2 :
  find_one query l1 = None → query j = true →
  find_one query (l1 ++ j :: l2) = Some j.
Proof.
  induction l1 as [|a l1 IH]; simpl; intros Hn Hq.
  - by rewrite Hq.
  - destruct (query a); [discriminate|]. by apply IH.
Qed.

Lemma find_and_modify_at query update l1 j l2 :
  find_one query l1 = None → query j = true →
  find_and_modify query update (l1 ++ j :: l2) = (Some j, l1 ++ update j :: l2).
Proof.
  induction l1 as [|a l1 IH]; simpl; intros Hn Hq.
  - by rewrite Hq.
  - destruct (query a); [discriminate|]. by rewrite IH.
Qed.

Lemma find_and_modify_None query update l :
  find_one query l = None → find_and_modify query update l = (None, l).
Proof.
  induction l as [|a l IH]; simpl; [done|].
  destruct (query a); [discriminate|]. intros H. by rewrite IH.
Qed.

Lemma update_first_at query update l1 j l2 :
  find_one query l1 = None → query j = true →
  update_first query update (l1 ++ j :: l2) = l1 ++ update j :: l2.
Proof.
  induction l1 as [|a l1 IH]; simpl; intros Hn Hq.
  - by rewrite Hq.
  - destruct (query a); [discriminate|]. by rewrite IH.
Qed.

Lemma update_first_None query update l :
  find_one query l = None → update_first query update l = l.
Proof.
  induction l as [|a l IH]; simpl; [done|].
  destruct (query a); [discriminate|]. intros H. by rewrite IH.
Qed.

Lemma count_app query l1 l2 :
  count query (l1 ++ l2) = count query l1 + count query l2.
Proof. induction l1 as [|a l1 IH]; simpl; [done|]. rewrite IH. lia. Qed.

Lemma count_nonneg query l : 0 ≤ count query l.
Proof. induction l as [|a l IH]; simpl; [done|]. destruct (query a); lia. Qed.

Lemma count_zero query l : count query l = 0 ↔ find_one query l = None.
Proof.
  induction l as [|a l IH]; simpl; [done|].
  pose proof (count_nonneg query l).
  destruct (query a); [split; [lia | discriminate]|].
  rewrite <- IH. split; lia.
Qed.


Lemma remove_filter query l :
  remove query l = List.filter (λ j, negb (query j)) l.
Proof.
  induction l as [|a l IH]; simpl; [done|].
  destruct (query a); simpl; by rewrite IH.
Qed.

Lemma In_remove query l j :
  In j (remove query l) ↔ In j l ∧ query j = false.
Proof.
  rewrite remove_filter, filter_In, negb_true_iff. tauto.
Qed.

(** *** [get] *)

(** C7: with no OPEN job of the queue's realm and name, [get] raises (the
    [None] that [find_and_modify] returns is subscripted) and the store is
    as it was. *)
Theorem get_nothing_open_raises q now s :
  (∀ j, In j (jobs s) → job_rs j = config_RS q → job_qname j = name q →
        job_status_of j ≠ OPEN) →
  get q now s = (Err TypeError, s) ∧ len q s = 0 ∧ has_next q s = false.
Proof.
  intros H.
  assert (Hn : find_one (open_query q) (jobs s) = None).
  { apply find_one_None. intros j Hj.
    destruct (open_query q j) eqn:E; [|done].
    apply open_query_iff in E as (? & ? & ?). by destruct (H j). }
  assert (Hl : len q s = 0) by by apply count_zero.
  unfold get, has_next. rewrite (find_and_modify_None _ _ _ Hn), Hl. done.
Qed.

Lemma get_nothing_open_raises_witness :
  let q := mkQueue "sessions" "foobar" in
  let s := mkStore [mkJob 0%N "foobar" "sessions" DONE (VInt 1) 0 7 None;
                    mkJob 1%N "other" "sessions" OPEN (VInt 1) 0 8 None] 2%N in
  get q 9 s = (Err TypeError, s) ∧ len q s = 0 ∧ has_next q s = false.
Proof.
  intros q s. apply (get_nothing_open_raises q 9 s).
  intros j [<- | [<- | []]]; simpl; intros; discriminate.
Defined.



(** *** [garbage_collect] *)

(** C9: [garbage_collect] removes exactly the DONE jobs of the queue's realm
    and name, and leaves every other document as it is and where it is. *)
Theorem garbage_collect_exact q s :
  ∃ s', garbage_collect q s = (Ok tt, s') ∧
    next_oid s' = next_oid s ∧
    jobs s' = List.filter (λ j, negb (done_query q j)) (jobs s) ∧
    (∀ j, In j (jobs s') →
          ¬ (job_rs j = config_RS q ∧ job_qname j = name q ∧ job_status_of j = DONE)) ∧
    (∀ j, In j (jobs s') → In j (jobs s)) ∧
    (∀ j, In j (jobs s) →
          job_status_of j ≠ DONE ∨ job_rs j ≠ config_RS q ∨ job_qname j ≠ name q →
          In j (jobs s')).
Proof.
  eexists. split; [reflexivity|]. simpl. repeat split.
  - apply remove_filter.
  - intros j Hj Hd. apply In_remove in Hj as [_ Hj].
    apply done_query_iff in Hd. congruence.
  - intros j Hj. by apply In_remove in Hj as [? _].
  - intros j Hj Hk. apply In_remove. split; [done|].
    destruct (done_query q j) eqn:E; [|done].
    apply done_query_iff in E as (? & ? & ?). tauto.
Qed.

(** *** A key that names no job *)



(** *** [add] *)

Lemma existsb_same_index q k i now p l :
  existsb (same_index (mkJob i (config_RS q) (name q) OPEN k 0 now p)) l =
  existsb (key_query q k) l.
Proof.
  induction l as [|a l IH]; simpl; [done|]. rewrite IH. f_equal.
  unfold same_index, key_query. simpl.
  rewrite (String.eqb_sym (config_RS q)), (String.eqb_sym (name q)).
  f_equal. apply eq_true_iff_eq. rewrite !value_eqb_eq. split; congruence.
Qed.

Lemma existsb_find_one query l :
  existsb query l = false ↔ find_one query l = None.
Proof.
  induction l as [|a l IH]; simpl; [done|]. by destruct (query a).
Qed.

(** What [add] does, by whether the key is already there. *)
Lemma add_unfold q now key_or_element k s :
  key_of key_or_element = Ok k →
  add q now key_or_element s =
    if existsb (key_query q k) (jobs s) then (Ok tt, s)
    else (Ok tt,
          mkStore (jobs s ++ [mkJob (next_oid s) (config_RS q) (name q) OPEN k 0 now
                                    (payload_of key_or_element)])
                  (N.succ (next_oid s))).
Proof.
  intros Hk. unfold add, save. rewrite Hk, existsb_same_index.
  by destruct (existsb (key_query q k) (jobs s)).
Qed.



(** *** [mark_failed] *)

Lemma ids_unique_first l1 j l2 :
  ids_unique (l1 ++ j :: l2) = true → find_one (id_query (job_id j)) l1 = None.
Proof.
  induction l1 as [|a l1 IH]; simpl; [done|].
  rewrite andb_true_iff, negb_true_iff, existsb_app. simpl.
  intros [Ha Hu]. apply orb_false_elim in Ha as [_ Ha].
  apply orb_false_elim in Ha as [Ha _].
  unfold id_query in *. rewrite N.eqb_sym, Ha. by apply IH.
Qed.

(** [mark_failed] on the job its query finds, by position. *)
Lemma mark_failed_at q key_or_element k nx l1 j l2 :
  key_of key_or_element = Ok k →
  find_one (key_query q k) l1 = None → key_query q k j = true →
  find_one (id_query (job_id j)) l1 = None →
  mark_failed q key_or_element (mkStore (l1 ++ j :: l2) nx) =
    (Ok tt, mkStore (l1 ++ inc_failures (2 <=? job_failures j) j :: l2) nx).
Proof.
  intros Hk Hn Hq Hi. unfold mark_failed. rewrite Hk. simpl.
  rewrite (find_one_at _ _ _ _ Hn Hq). unfold with_jobs. simpl.
  rewrite update_first_at; [done | done |]. unfold id_query. apply N.eqb_refl.
Qed.

(** C4: on the job its key names, each [mark_failed] adds one to
    ['failures'] and touches nothing else, except that the call that finds
    two or more failures also writes FAILED; so from no failures, two calls
    leave the status alone with two failures and the third sets FAILED. *)
Theorem mark_failed_counts q key_or_element k s j :
  ids_unique (jobs s) = true →
  key_of key_or_element = Ok k →
  find_one (key_query q k) (jobs s) = Some j →
  ∃ l1 l2,
    jobs s = l1 ++ j :: l2 ∧
    mark_failed q key_or_element s =
      (Ok tt, with_jobs s (l1 ++ inc_failures (2 <=? job_failures j) j :: l2)) ∧
    job_failures (inc_failures (2 <=? job_failures j) j) = job_failures j + 1 ∧
    (job_failures j + 1 = 3 →
     job_status_of (inc_failures (2 <=? job_failures j) j) = FAILED) ∧
    (job_failures j + 1 < 3 →
     job_status_of (inc_failures (2 <=? job_failures j) j) = job_status_of j) ∧
    (job_failures j = 0 →
     let s2 := snd (mark_failed q key_or_element (snd (mark_failed q key_or_element s))) in
     let s3 := snd (mark_failed q key_or_element s2) in
     s2 = with_jobs s
            (l1 ++ mkJob (job_id j) (job_rs j) (job_qname j) (job_status_of j)
                         (job_key j) 2 (job_last_modified j) (job_payload j) :: l2) ∧
     s3 = with_jobs s
            (l1 ++ mkJob (job_id j) (job_rs j) (job_qname j) FAILED
                         (job_key j) 3 (job_last_modified j) (job_payload j) :: l2)).
Proof.
  intros Hu Hk Hf.
  destruct (find_one_Some _ _ _ Hf) as (l1 & l2 & Hl & Hq & Hn).
  rewrite Hl in Hu. pose proof (ids_unique_first _ _ _ Hu) as Hi.
  assert (Hat : ∀ j0, job_id j0 = job_id j → key_query q k j0 = true →
    mark_failed q key_or_element (with_jobs s (l1 ++ j0 :: l2)) =
      (Ok tt, with_jobs s (l1 ++ inc_failures (2 <=? job_failures j0) j0 :: l2))).
  { intros j0 Hid Hq0. unfold with_jobs. simpl.
    apply (mark_failed_at q key_or_element k); [done.. |]. by rewrite Hid. }
  assert (Hs : s = with_jobs s (l1 ++ j :: l2)).
  { destruct s as [js nx]. simpl in Hl. unfold with_jobs. simpl. by rewrite Hl. }
  exists l1, l2. split_and!; [done | | done | | |].
  - rewrite Hs at 1. by apply Hat.
  - intros H. simpl. replace (2 <=? job_failures j) with true; [done|].
    symmetry. apply Z.leb_le. lia.
  - intros H. simpl. replace (2 <=? job_failures j) with false; [done|].
    symmetry. apply Z.leb_gt. lia.
  - intros H0 s2 s3. subst s3 s2.
    assert (E1 : mark_failed q key_or_element s =
                 (Ok tt, with_jobs s (l1 ++ inc_failures (2 <=? job_failures j) j :: l2))).
    { rewrite Hs at 1. by apply Hat. }
    rewrite E1. cbn [snd].
    rewrite (Hat (inc_failures (2 <=? job_failures j) j)) by done. cbn [snd].
    unfold with_jobs at 1 2. cbn [next_oid].
    change (mkStore ?l (next_oid s)) with (with_jobs s l).
    rewrite Hat by done. cbn [snd].
    unfold with_jobs, inc_failures. simpl. rewrite H0. simpl. done.
Qed.

Lemma mark_failed_counts_witness :
  let q := mkQueue "TEST_QUEUE" "foobar" in
  let j := mkJob 1%N "foobar" "TEST_QUEUE" IN_PROGRESS (VInt 3) 0 8 None in
  let s := mkStore [mkJob 0%N "foobar" "TEST_QUEUE" DONE (VInt 1) 0 7 None; j] 2%N in
  let e := VDict [("key", VInt 3)] in
  ids_unique (jobs s) = true ∧ key_of e = Ok (VInt 3) ∧
  find_one (key_query q (VInt 3)) (jobs s) = Some j ∧
  ∃ l1 l2,
    jobs s = l1 ++ j :: l2 ∧
    mark_failed q e s =
      (Ok tt, with_jobs s (l1 ++ inc_failures (2 <=? job_failures j) j :: l2)) ∧
    job_failures (inc_failures (2 <=? job_failures j) j) = job_failures j + 1 ∧
    (job_failures j + 1 = 3 →
     job_status_of (inc_failures (2 <=? job_failures j) j) = FAILED) ∧
    (job_failures j + 1 < 3 →
     job_status_of (inc_failures (2 <=? job_failures j) j) = job_status_of j) ∧
    (job_failures j = 0 →
     let s2 := snd (mark_failed q e (snd (mark_failed q e s))) in
     let s3 := snd (mark_failed q e s2) in
     s2 = with_jobs s
            (l1 ++ mkJob (job_id j) (job_rs j) (job_qname j) (job_status_of j)
                         (job_key j) 2 (job_last_modified j) (job_payload j) :: l2) ∧
     s3 = with_jobs s
            (l1 ++ mkJob (job_id j) (job_rs j) (job_qname j) FAILED
                         (job_key j) 3 (job_last_modified j) (job_payload j) :: l2)).
Proof.
  intros q j s e. split_and!; [reflexivity.. |].
  apply (mark_failed_counts q e (VInt 3) s j); reflexivity.
Defined.

(** *** ObjectIds stay unique *)

Lemma existsb_id_map i l l' :
  map job_id l = map job_id l' →
  existsb (id_query i) l = existsb (id_query i) l'.
Proof.
  revert l'. induction l as [|a l IH]; intros [|b l']; simpl; try done.
  intros [= Hab Hl]. unfold id_query at 1 3. rewrite Hab. f_equal. by apply IH.
Qed.

Lemma ids_unique_map l l' :
  map job_id l = map job_id l' → ids_unique l = ids_unique l'.
Proof.
  revert l'. induction l as [|a l IH]; intros [|b l']; simpl; try done.
  intros [= Hab Hl]. rewrite Hab, (existsb_id_map _ _ _ Hl). f_equal. by apply IH.
Qed.

Lemma ids_below_map nx l l' :
  map job_id l = map job_id l' →
  ids_below (mkStore l nx) = ids_below (mkStore l' nx).
Proof.
  unfold ids_below. simpl.
  revert l'. induction l as [|a l IH]; intros [|b l']; simpl; try done.
  intros [= Hab Hl]. rewrite Hab. f_equal. by apply IH.
Qed.

Lemma wf_map s l :
  map job_id l = map job_id (jobs s) → wf (with_jobs s l) = wf s.
Proof.
  intros H. destruct s as [js nx]. unfold wf, with_jobs. simpl in *.
  by rewrite (ids_below_map _ _ _ H), (ids_unique_map _ _ H).
Qed.

Lemma map_id_find_and_modify query update l :
  (∀ j, job_id (update j) = job_id j) →
  map job_id (snd (find_and_modify query update l)) = map job_id l.
Proof.
  intros Hu. induction l as [|a l IH]; simpl; [done|].
  destruct (query a); simpl; [by rewrite Hu|].
  destruct (find_and_modify query update l). simpl in *. by rewrite IH.
Qed.

Lemma map_id_update_first query update l :
  (∀ j, job_id (update j) = job_id j) →
  map job_id (update_first query update l) = map job_id l.
Proof.
  intros Hu. induction l as [|a l IH]; simpl; [done|].
  destruct (query a); simpl; [by rewrite Hu | by rewrite IH].
Qed.

Lemma existsb_remove p query l :
  existsb p (remove query l) = true → existsb p l = true.
Proof.
  induction l as [|a l IH]; simpl; [done|].
  destruct (query a); simpl; rewrite ?orb_true_iff; intuition.
Qed.

Lemma ids_unique_remove query l :
  ids_unique l = true → ids_unique (remove query l) = true.
Proof.
  induction l as [|a l IH]; simpl; [done|].
  rewrite andb_true_iff, negb_true_iff. intros [Ha Hl].
  destruct (query a); simpl; [by apply IH|].
  rewrite andb_true_iff, negb_true_iff. split; [|by apply IH].
  destruct (existsb (id_query (job_id a)) (remove query l)) eqn:E; [|done].
  apply existsb_remove in E. congruence.
Qed.

Lemma ids_unique_snoc l j :
  existsb (id_query (job_id j)) l = false → ids_unique l = true →
  ids_unique (l ++ [j]) = true.
Proof.
  induction l as [|a l IH]; simpl; [done|].
  rewrite !andb_true_iff, !negb_true_iff, existsb_app. simpl.
  intros Hj [Ha Hl]. apply orb_false_elim in Hj as [Hja Hj].
  split; [|by apply IH]. rewrite Ha, orb_false_r. simpl.
  unfold id_query in *. by rewrite N.eqb_sym.
Qed.

Lemma ids_below_fresh s :
  ids_below s = true → existsb (id_query (next_oid s)) (jobs s) = false.
Proof.
  unfold ids_below. induction (jobs s) as [|a l IH]; simpl; [done|].
  rewrite andb_true_iff. intros [Ha Hl]. rewrite (IH Hl), orb_false_r.
  unfold id_query. apply N.eqb_neq. apply N.ltb_lt in Ha. lia.
Qed.

Lemma get_store q now s :
  snd (get q now s) =
  with_jobs s (snd (find_and_modify (open_query q)
                      (set_status_modified IN_PROGRESS now) (jobs s))).
Proof.
  unfold get.
  destruct (find_one (open_query q) (jobs s)) as [j|] eqn:Hf.
  - destruct (find_one_Some _ _ _ Hf) as (l1 & l2 & -> & Hq & Hn).
    by rewrite (find_and_modify_at _ _ _ _ _ Hn Hq).
  - rewrite (find_and_modify_None _ _ _ Hf). by destruct s.
Qed.

(** Every call keeps the store well formed. *)
Lemma step_wf s o : wf s = true → wf (step s o) = true.
Proof.
  intros Hwf. destruct o as [q now a | q now | q now a | q a | q]; simpl.
  - destruct (key_of a) as [k|e] eqn:Hk; [|by unfold add; rewrite Hk].
    rewrite (add_unfold _ _ _ _ _ Hk).
    destruct (existsb (key_query q k) (jobs s)); [done|]. simpl.
    unfold wf in *. apply andb_true_iff in Hwf as [Hb Hu].
    apply andb_true_iff. split.
    + unfold ids_below in *. simpl. rewrite forallb_app. simpl.
      rewrite andb_true_iff. split.
      * apply forallb_forall. intros j Hj.
        apply (proj1 (forallb_forall _ _) Hb) in Hj.
        apply N.ltb_lt in Hj. apply N.ltb_lt. lia.
      * rewrite andb_true_r. apply N.ltb_lt. lia.
    + simpl. apply ids_unique_snoc; [|done]. by apply ids_below_fresh.
  - rewrite get_store, wf_map; [done|]. by apply map_id_find_and_modify.
  - unfold resolve_job. destruct (key_of a) as [k|e]; [|done].
    pose proof (map_id_find_and_modify (key_query q k) (set_status_modified DONE now)
                  (jobs s) (λ _, eq_refl)) as Hm.
    destruct (find_and_modify _ _ _). simpl in *. by rewrite wf_map.
  - unfold mark_failed. destruct (key_of a) as [k|e]; [|done].
    destruct (find_one _ _); [|done]. simpl.
    rewrite wf_map; [done|]. by apply map_id_update_first.
  - unfold wf in *. apply andb_true_iff in Hwf as [Hb Hu].
    apply andb_true_iff. split; [|by apply ids_unique_remove].
    unfold ids_below in *. simpl. apply forallb_forall. intros j Hj.
    apply In_remove in Hj as [Hj _].
    by apply (proj1 (forallb_forall _ _) Hb).
Qed.

Lemma run_wf ops : ∀ s, wf s = true → wf (run ops s) = true.
Proof.
  induction ops as [|o ops IH]; intros s Hwf; [done|].
  apply IH. by apply step_wf.
Qed.

Lemma reachable_wf s : reachable s → wf s = true.
Proof. intros [ops ->]. by apply run_wf. Qed.

(** *** Jobs that are DONE or FAILED *)



Lemma ids_unique_inj l a b :
  ids_unique l = true → In a l → In b l → job_id a = job_id b → a = b.
Proof.
  induction l as [|c l IH]; simpl; [done|].
  rewrite andb_true_iff, negb_true_iff. intros [Hc Hl] Ha Hb Hab.
  assert (Hno : ∀ x, In x l → job_id x ≠ job_id c).
  { intros x Hx Hxc.
    assert (existsb (id_query (job_id c)) l = true); [|congruence].
    apply existsb_exists. exists x. split; [done|]. by apply N.eqb_eq. }
  destruct Ha as [->|Ha], Hb as [->|Hb]; [done | | | by apply IH].
  - destruct (Hno b Hb). done.
  - destruct (Hno a Ha). done.
Qed.








(** *** The test run at the end of [queue.py] *)

(** The calls of the [__main__] block, with its [assert]s. *)
Example main_test_run :
  let q := mkQueue "TEST_QUEUE" "foobar" in
  let e := λ k, VDict [("key", VInt k)] in
  let s1 := snd (add q 1 (e 1) empty) in
  let s2 := snd (add q 4 (e 3) (snd (add q 3 (e 2) (snd (add q 2 (e 1) s1))))) in
  let g1 := get q 5 s2 in
  let g2 := get q 6 (snd g1) in
  let g3 := get q 7 (snd g2) in
  let s3 := snd (resolve_job q 9 (e 2) (snd (resolve_job q 8 (e 1) (snd g3)))) in
  let s4 := snd (mark_failed q (e 3) (snd (mark_failed q (e 3)
                   (snd (mark_failed q (e 3) s3))))) in
  has_next q empty = false ∧ has_next q s1 = true ∧ len q s2 = 3 ∧
  fst g1 = Ok (e 1) ∧ len q (snd g1) = 2 ∧
  fst g2 = Ok (e 2) ∧ len q (snd g2) = 1 ∧
  fst g3 = Ok (e 3) ∧ len q (snd g3) = 0 ∧ has_next q (snd g3) = false ∧
  jobs (snd (garbage_collect q s4)) =
    [mkJob 2%N "foobar" "TEST_QUEUE" FAILED (VInt 3) 3 7 None].
Proof. vm_compute. done. Qed.

End QueueStore.

(** ** The job queue: the unique index, isolation and round trips *)

Section QueueMore.
Import Queue.

Lemma find_one_In_job query l j :
  find_one query l = Some j → In j l ∧ query j = true.
Proof.
  intros H. destruct (find_one_Some _ _ _ H) as (l1 & l2 & -> & Hq & _).
  split; [|done]. apply in_or_app. right. by left.
Qed.

Lemma same_index_sym a b : same_index a b = same_index b a.
Proof.
  unfold same_index.
  rewrite (String.eqb_sym (job_rs a)), (String.eqb_sym (job_qname a)).
  f_equal. apply eq_true_iff_eq. rewrite !value_eqb_eq. split; congruence.
Qed.

Lemma same_index_iff a b :
  same_index a b = true ↔
  job_rs a = job_rs b ∧ job_qname a = job_qname b ∧ job_key a = job_key b.
Proof.
  unfold same_index. rewrite !andb_true_iff, !String.eqb_eq, value_eqb_eq. tauto.
Qed.

Lemma same_index_ext a a' b b' :
  (job_rs a = job_rs a' ∧ job_qname a = job_qname a' ∧ job_key a = job_key a') →
  (job_rs b = job_rs b' ∧ job_qname b = job_qname b' ∧ job_key b = job_key b') →
  same_index a b = same_index a' b'.
Proof.
  intros (Ha1 & Ha2 & Ha3) (Hb1 & Hb2 & Hb3). unfold same_index.
  by rewrite Ha1, Ha2, Ha3, Hb1, Hb2, Hb3.
Qed.

Lemma existsb_same_index_ext j j' l l' :
  (job_rs j = job_rs j' ∧ job_qname j = job_qname j' ∧ job_key j = job_key j') →
  Forall2 (λ a b, job_rs a = job_rs b ∧ job_qname a = job_qname b
                  ∧ job_key a = job_key b) l l' →
  existsb (same_index j) l = existsb (same_index j') l'.
Proof.
  intros Hj Hl. induction Hl as [|a b l l' Hab _ IH]; simpl; [done|].
  by rewrite IH, (same_index_ext j j' a b).
Qed.

Lemma index_unique_ext l l' :
  Forall2 (λ a b, job_rs a = job_rs b ∧ job_qname a = job_qname b
                  ∧ job_key a = job_key b) l l' →
  index_unique l = index_unique l'.
Proof.
  intros Hl. induction Hl as [|a b l l' Hab Hl IH]; simpl; [done|].
  by rewrite IH, (existsb_same_index_ext a b l l').
Qed.

Lemma find_and_modify_same_keys query update l :
  (∀ j, job_rs j = job_rs (update j) ∧ job_qname j = job_qname (update j)
        ∧ job_key j = job_key (update j)) →
  Forall2 (λ a b, job_rs a = job_rs b ∧ job_qname a = job_qname b
                  ∧ job_key a = job_key b) l (snd (find_and_modify query update l)).
Proof.
  intros Hu. induction l as [|a l IH]; simpl; [constructor|].
  destruct (query a); simpl.
  - constructor; [apply Hu|]. apply Forall2_same_length_lookup_2; [done|].
    intros i x y Hx Hy. by simplify_eq.
  - destruct (find_and_modify query update l). simpl in *. by constructor.
Qed.

Lemma update_first_same_keys query update l :
  (∀ j, job_rs j = job_rs (update j) ∧ job_qname j = job_qname (update j)
        ∧ job_key j = job_key (update j)) →
  Forall2 (λ a b, job_rs a = job_rs b ∧ job_qname a = job_qname b
                  ∧ job_key a = job_key b) l (update_first query update l).
Proof.
  intros Hu. induction l as [|a l IH]; simpl; [constructor|].
  destruct (query a); simpl; [|by constructor].
  constructor; [apply Hu|]. apply Forall2_same_length_lookup_2; [done|].
  intros i x y Hx Hy. by simplify_eq.
Qed.

Lemma index_unique_remove query l :
  index_unique l = true → index_unique (remove query l) = true.
Proof.
  induction l as [|a l IH]; simpl; [done|].
  rewrite andb_true_iff, negb_true_iff. intros [Ha Hl].
  destruct (query a); simpl; [by apply IH|].
  rewrite andb_true_iff, negb_true_iff. split; [|by apply IH].
  destruct (existsb (same_index a) (remove query l)) eqn:E; [|done].
  apply existsb_remove in E. congruence.
Qed.

Lemma index_unique_snoc l j :
  existsb (same_index j) l = false → index_unique l = true →
  index_unique (l ++ [j]) = true.
Proof.
  induction l as [|a l IH]; simpl; [done|].
  rewrite !andb_true_iff, !negb_true_iff, existsb_app. simpl.
  intros Hj [Ha Hl]. apply orb_false_elim in Hj as [Hja Hj].
  split; [|by apply IH]. by rewrite Ha, orb_false_r, same_index_sym.
Qed.

(** Nothing before the job at a position shares its index entry. *)
Lemma index_unique_before l1 j l2 a :
  index_unique (l1 ++ j :: l2) = true → In a l1 → same_index a j = false.
Proof.
  induction l1 as [|c l1 IH]; simpl; [done|].
  rewrite andb_true_iff, negb_true_iff, existsb_app. simpl.
  intros [Hc Hl] [->|Ha]; [|by apply IH].
  apply orb_false_elim in Hc as [_ Hc]. by apply orb_false_elim in Hc as [Hc _].
Qed.

Lemma index_unique_inj l a b :
  index_unique l = true → In a l → In b l → same_index a b = true → a = b.
Proof.
  induction l as [|c l IH]; simpl; [done|].
  rewrite andb_true_iff, negb_true_iff. intros [Hc Hl] Ha Hb Hab.
  assert (Hno : ∀ x, In x l → same_index c x = false).
  { intros x Hx. destruct (same_index c x) eqn:E; [|done].
    assert (existsb (same_index c) l = true); [|congruence].
    apply existsb_exists. by exists x. }
  destruct Ha as [->|Ha], Hb as [->|Hb]; [done | | | by apply IH].
  - rewrite (Hno b Hb) in Hab. done.
  - rewrite same_index_sym, (Hno a Ha) in Hab. done.
Qed.

Lemma step_index_unique s o :
  index_unique (jobs s) = true → index_unique (jobs (step s o)) = true.
Proof.
  intros Hu. destruct o as [q now a | q now | q now a | q a | q]; simpl.
  - destruct (key_of a) as [k|e] eqn:Hk; [|by unfold add; rewrite Hk].
    rewrite (add_unfold _ _ _ _ _ Hk).
    destruct (existsb (key_query q k) (jobs s)) eqn:E; [done|]. simpl.
    apply index_unique_snoc; [|done]. by rewrite existsb_same_index.
  - rewrite get_store. simpl.
    pose proof (find_and_modify_same_keys (open_query q)
                  (set_status_modified IN_PROGRESS now) (jobs s)
                  (λ _, conj eq_refl (conj eq_refl eq_refl))) as Hm.
    by rewrite <- (index_unique_ext _ _ Hm).
  - unfold resolve_job. destruct (key_of a) as [k|e]; [|done].
    pose proof (find_and_modify_same_keys (key_query q k) (set_status_modified DONE now)
                  (jobs s) (λ _, conj eq_refl (conj eq_refl eq_refl))) as Hm.
    destruct (find_and_modify _ _ _). simpl in *.
    by rewrite <- (index_unique_ext _ _ Hm).
  - unfold mark_failed. destruct (key_of a) as [k|e]; [|done].
    destruct (find_one _ _) as [j|]; [|done]. simpl.
    by rewrite <- (index_unique_ext _ _
                     (update_first_same_keys (id_query (job_id j))
                        (inc_failures (2 <=? job_failures j)) (jobs s)
                        (λ _, conj eq_refl (conj eq_refl eq_refl)))).
  - by apply index_unique_remove.
Qed.

Lemma run_index_unique ops : ∀ s,
  index_unique (jobs s) = true → index_unique (jobs (run ops s)) = true.
Proof.
  induction ops as [|o ops IH]; intros s Hu; [done|].
  apply IH. by apply step_index_unique.
Qed.

(** X1: whatever calls are made on whatever [Queue] objects, starting from
    an empty collection, no two documents ever agree on realm, queue name
    and key. *)
Theorem reachable_index_unique s :
  reachable s → index_unique (jobs s) = true.
Proof. intros [ops ->]. by apply run_index_unique. Qed.

Lemma reachable_index_unique_witness :
  let q := mkQueue "TEST_QUEUE" "foobar" in
  let q' := mkQueue "OTHER" "foobar" in
  let s := run [Add q 1 (VInt 1); Add q' 2 (VInt 1); Add q 3 (VInt 1); Get q 4;
                Add q 5 (VInt 1); ResolveJob q 6 (VInt 1); Add q 7 (VInt 1)] empty in
  reachable s ∧ length (jobs s) = 2%nat ∧ index_unique (jobs s) = true.
Proof.
  intros q q' s. split; [by eexists|]. split; [reflexivity|].
  apply (reachable_index_unique s). by eexists.
Defined.

(** X2: a dict without ['key'] makes [add], [resolve_job] and [mark_failed]
    raise [KeyError] before any store call, so the collection is as it
    was. *)
Theorem element_without_key_raises q now d s :
  dict_get "key" d = None →
  add q now (VDict d) s = (Err (KeyError "key"), s) ∧
  resolve_job q now (VDict d) s = (Err (KeyError "key"), s) ∧
  mark_failed q (VDict d) s = (Err (KeyError "key"), s).
Proof.
  intros Hd. unfold add, resolve_job, mark_failed, key_of. by rewrite Hd.
Qed.

Lemma element_without_key_raises_witness :
  let q := mkQueue "TEST_QUEUE" "foobar" in
  let d := [("payload", VStr "p")] in
  let s := mkStore [mkJob 0%N "foobar" "TEST_QUEUE" OPEN (VInt 1) 0 7 None] 1%N in
  dict_get "key" d = None ∧
  add q 9 (VDict d) s = (Err (KeyError "key"), s) ∧
  resolve_job q 9 (VDict d) s = (Err (KeyError "key"), s) ∧
  mark_failed q (VDict d) s = (Err (KeyError "key"), s).
Proof.
  intros q d s. split; [reflexivity|].
  apply (element_without_key_raises q 9 d s). reflexivity.
Defined.

(** X3: under the unique index, what [get] returns names the job it has
    claimed: handed to [resolve_job], it turns that very job, and no other,
    into DONE. *)
Theorem resolve_job_after_get q now now' s out s1 :
  index_unique (jobs s) = true →
  get q now s = (Ok out, s1) →
  ∃ l1 j l2,
    jobs s = l1 ++ j :: l2 ∧ job_status_of j = OPEN ∧
    s1 = with_jobs s (l1 ++ set_status_modified IN_PROGRESS now j :: l2) ∧
    resolve_job q now' out s1 =
      (Ok tt, with_jobs s (l1 ++ set_status_modified DONE now' j :: l2)).
Proof.
  intros Hu Hget. unfold get in Hget.
  destruct (find_one (open_query q) (jobs s)) as [j|] eqn:Hf.
  2: { by rewrite (find_and_modify_None _ _ _ Hf) in Hget. }
  destruct (find_one_Some _ _ _ Hf) as (l1 & l2 & Hl & Hq & Hn).
  rewrite Hl, (find_and_modify_at _ _ _ _ _ Hn Hq) in Hget.
  injection Hget as <- <-.
  apply open_query_iff in Hq as (Hrs & Hqn & Hst).
  exists l1, j, l2. split_and!; [done.. |].
  assert (Hk : key_of (match job_payload j with
                       | Some p => VDict [("key", job_key j); ("payload", p)]
                       | None => VDict [("key", job_key j)]
                       end) = Ok (job_key j)) by by destruct (job_payload j).
  unfold resolve_job. rewrite Hk. cbn [jobs with_jobs].
  rewrite find_and_modify_at; [done | | by apply key_query_iff].
  apply find_one_None. intros a Ha.
  destruct (key_query q (job_key j) a) eqn:E; [|done].
  apply key_query_iff in E as (Ea & Eb & Ec).
  rewrite Hl in Hu. rewrite <- (index_unique_before _ _ _ a Hu Ha).
  symmetry. apply same_index_iff. split_and!; congruence.
Qed.

Lemma resolve_job_after_get_witness :
  let q := mkQueue "TEST_QUEUE" "foobar" in
  let s := mkStore [mkJob 0%N "foobar" "TEST_QUEUE" DONE (VInt 1) 0 7 None;
                    mkJob 1%N "foobar" "TEST_QUEUE" OPEN (VInt 2) 0 8 None] 2%N in
  let out := VDict [("key", VInt 2)] in
  let s1 := mkStore [mkJob 0%N "foobar" "TEST_QUEUE" DONE (VInt 1) 0 7 None;
                     mkJob 1%N "foobar" "TEST_QUEUE" IN_PROGRESS (VInt 2) 0 9 None] 2%N in
  index_unique (jobs s) = true ∧ get q 9 s = (Ok out, s1) ∧
  ∃ l1 j l2,
    jobs s = l1 ++ j :: l2 ∧ job_status_of j = OPEN ∧
    s1 = with_jobs s (l1 ++ set_status_modified IN_PROGRESS 9 j :: l2) ∧
    resolve_job q 10 out s1 =
      (Ok tt, with_jobs s (l1 ++ set_status_modified DONE 10 j :: l2)).
Proof.
  intros q s out s1. split; [reflexivity|]. split; [reflexivity|].
  apply (resolve_job_after_get q 9 10 s out s1); reflexivity.
Defined.

Lemma remove_idempotent query l : remove query (remove query l) = remove query l.
Proof.
  induction l as [|a l IH]; simpl; [done|].
  destruct (query a) eqn:E; simpl; [done|]. by rewrite E, IH.
Qed.

Lemma count_remove_disjoint p query l :
  (∀ j, query j = true → p j = false) →
  count p (remove query l) = count p l.
Proof.
  intros H. induction l as [|a l IH]; simpl; [done|].
  destruct (query a) eqn:E; simpl; rewrite IH; [|done]. by rewrite (H a E).
Qed.

(** X4: [garbage_collect] changes the length of no queue, and a second
    [garbage_collect] right after the first removes nothing more. *)
Theorem garbage_collect_idempotent q q' s :
  len q' (snd (garbage_collect q s)) = len q' s ∧
  garbage_collect q (snd (garbage_collect q s)) = garbage_collect q s.
Proof.
  unfold garbage_collect, len, with_jobs. simpl. split.
  - apply count_remove_disjoint. intros j Hd.
    apply done_query_iff in Hd as (_ & _ & Hd).
    destruct (open_query q' j) eqn:E; [|done].
    apply open_query_iff in E as (_ & _ & E). congruence.
  - by rewrite remove_idempotent.
Qed.

(** X5: a key whose job is DONE cannot be added again as long as the job is
    stored; once [garbage_collect] has removed it, the same [add] inserts a
    new OPEN job. *)
Theorem add_again_after_garbage_collect q now key_or_element k s j :
  index_unique (jobs s) = true →
  key_of key_or_element = Ok k →
  find_one (key_query q k) (jobs s) = Some j →
  job_status_of j = DONE →
  add q now key_or_element s = (Ok tt, s) ∧
  let s1 := snd (garbage_collect q s) in
  ¬ In j (jobs s1) ∧
  add q now key_or_element s1 =
    (Ok tt,
     mkStore (jobs s1 ++ [mkJob (next_oid s) (config_RS q) (name q) OPEN k 0 now
                                (payload_of key_or_element)])
             (N.succ (next_oid s))).
Proof.
  intros Hu Hk Hf Hst.
  destruct (find_one_In_job _ _ _ Hf) as [Hin Hq].
  pose proof (proj1 (key_query_iff q k j) Hq) as (Hrs & Hqn & Hkey).
  assert (Hdone : done_query q j = true) by by apply done_query_iff.
  cbv zeta. split_and!.
  - rewrite (add_unfold _ _ _ _ _ Hk).
    replace (existsb (key_query q k) (jobs s)) with true; [done|].
    symmetry. apply existsb_exists. by exists j.
  - simpl. intros Hj. apply In_remove in Hj as [_ Hj]. congruence.
  - rewrite (add_unfold _ _ _ _ _ Hk). simpl.
    replace (existsb (key_query q k) (remove (done_query q) (jobs s))) with false; [done|].
    symmetry. apply existsb_find_one, find_one_None. intros a Ha.
    apply In_remove in Ha as [Ha Hna].
    destruct (key_query q k a) eqn:E; [|done].
    apply key_query_iff in E as (Ea & Eb & Ec).
    assert (a = j); [|congruence].
    apply (index_unique_inj (jobs s)); [done.. |].
    apply same_index_iff. split_and!; congruence.
Qed.

Lemma add_again_after_garbage_collect_witness :
  let q := mkQueue "TEST_QUEUE" "foobar" in
  let j := mkJob 0%N "foobar" "TEST_QUEUE" DONE (VInt 1) 0 7 None in
  let s := mkStore [j; mkJob 1%N "foobar" "TEST_QUEUE" OPEN (VInt 2) 0 8 None] 2%N in
  index_unique (jobs s) = true ∧ key_of (VInt 1) = Ok (VInt 1) ∧
  find_one (key_query q (VInt 1)) (jobs s) = Some j ∧ job_status_of j = DONE ∧
  add q 9 (VInt 1) s = (Ok tt, s) ∧
  add q 9 (VInt 1) (snd (garbage_collect q s)) =
    (Ok tt,
     mkStore [mkJob 1%N "foobar" "TEST_QUEUE" OPEN (VInt 2) 0 8 None;
              mkJob 2%N "foobar" "TEST_QUEUE" OPEN (VInt 1) 0 9 None] 3%N).
Proof.
  intros q j s. split_and!; [reflexivity.. | |];
    destruct (add_again_after_garbage_collect q 9 (VInt 1) (VInt 1) s j
                eq_refl eq_refl eq_refl eq_refl) as (Hblocked & _ & Hagain);
    [exact Hblocked | exact Hagain].
Defined.

(** X6: [resolve_job] twice on the same key leaves what the second call
    alone leaves: the job DONE, with the later timestamp. *)
Theorem resolve_job_twice q t1 t2 key_or_element s :
  snd (resolve_job q t2 key_or_element (snd (resolve_job q t1 key_or_element s))) =
  snd (resolve_job q t2 key_or_element s).
Proof.
  unfold resolve_job. destruct (key_of key_or_element) as [k|e]; [|done].
  destruct (find_one (key_query q k) (jobs s)) as [j|] eqn:Hf.
  - destruct (find_one_Some _ _ _ Hf) as (l1 & l2 & Hl & Hq & Hn).
    rewrite Hl.
    rewrite (find_and_modify_at _ (set_status_modified DONE t1) _ _ _ Hn Hq).
    rewrite (find_and_modify_at _ (set_status_modified DONE t2) _ _ _ Hn Hq).
    cbn [snd jobs with_jobs].
    rewrite find_and_modify_at; [done | done |].
    apply key_query_iff in Hq. by apply key_query_iff.
  - rewrite (find_and_modify_None _ (set_status_modified DONE t1) _ Hf).
    rewrite (find_and_modify_None _ (set_status_modified DONE t2) _ Hf).
    cbn [snd jobs with_jobs].
    by rewrite (find_and_modify_None _ _ _ Hf).
Qed.



(** *** Queues side by side *)

Lemma belongs_other q q' j :
  name q ≠ name q' ∨ config_RS q ≠ config_RS q' →
  belongs q j = true → belongs q' j = false.
Proof.
  unfold belongs. rewrite andb_true_iff, !String.eqb_eq. intros Hne [Hrs Hqn].
  apply andb_false_iff. rewrite !String.eqb_neq. destruct Hne; [right | left]; congruence.
Qed.

Lemma filter_replace (P : job → bool) l1 j j' l2 :
  P j = false → P j' = false →
  List.filter P (l1 ++ j :: l2) = List.filter P (l1 ++ j' :: l2).
Proof. intros Hj Hj'. rewrite !List.filter_app. simpl. by rewrite Hj, Hj'. Qed.

Lemma filter_remove_disjoint (P : job → bool) query l :
  (∀ j, query j = true → P j = false) →
  List.filter P (remove query l) = List.filter P l.
Proof.
  intros H. induction l as [|a l IH]; simpl; [done|].
  destruct (query a) eqn:E; simpl; rewrite IH; [|done]. by rewrite (H a E).
Qed.

Lemma count_open_filter q l :
  count (open_query q) l =
  count (λ j, status_eqb (job_status_of j) OPEN) (List.filter (belongs q) l).
Proof.
  induction l as [|a l IH]; simpl; [done|].
  unfold open_query at 1. fold (belongs q a).
  destruct (belongs q a); simpl; by rewrite IH.
Qed.

(** X8: a call made on one [Queue] object changes no document of a queue
    with another name or another realm, so that queue's length and
    [has_next] stay as they are. *)
Theorem other_queue_untouched s o q' :
  wf s = true →
  name (op_queue o) ≠ name q' ∨ config_RS (op_queue o) ≠ config_RS q' →
  List.filter (belongs q') (jobs (step s o)) = List.filter (belongs q') (jobs s) ∧
  len q' (step s o) = len q' s ∧
  has_next q' (step s o) = has_next q' s.
Proof.
  intros Hwf Hne.
  assert (Hfilter :
    List.filter (belongs q') (jobs (step s o)) = List.filter (belongs q') (jobs s)).
  { destruct o as [q now a | q now | q now a | q a | q]; simpl in *.
    - destruct (key_of a) as [k|e] eqn:Hk; [|by unfold add; rewrite Hk].
      rewrite (add_unfold _ _ _ _ _ Hk).
      destruct (existsb (key_query q k) (jobs s)); [done|]. simpl.
      rewrite List.filter_app. simpl.
      rewrite (belongs_other q q'); [by rewrite app_nil_r | done |].
      unfold belongs. simpl. by rewrite !String.eqb_refl.
    - rewrite get_store. simpl.
      destruct (find_one (open_query q) (jobs s)) as [j|] eqn:Hf.
      + destruct (find_one_Some _ _ _ Hf) as (l1 & l2 & Hl & Hq & Hn).
        rewrite Hl, (find_and_modify_at _ _ _ _ _ Hn Hq). simpl.
        apply open_query_iff in Hq as (Hrs & Hqn & _).
        apply filter_replace; apply (belongs_other q q'); try done;
          unfold belongs; simpl; by rewrite Hrs, Hqn, !String.eqb_refl.
      + by rewrite (find_and_modify_None _ _ _ Hf).
    - unfold resolve_job. destruct (key_of a) as [k|e]; [|done].
      destruct (find_one (key_query q k) (jobs s)) as [j|] eqn:Hf.
      + destruct (find_one_Some _ _ _ Hf) as (l1 & l2 & Hl & Hq & Hn).
        rewrite Hl, (find_and_modify_at _ _ _ _ _ Hn Hq). simpl.
        apply key_query_iff in Hq as (Hrs & Hqn & _).
        apply filter_replace; apply (belongs_other q q'); try done;
          unfold belongs; simpl; by rewrite Hrs, Hqn, !String.eqb_refl.
      + by rewrite (find_and_modify_None _ _ _ Hf).
    - unfold mark_failed. destruct (key_of a) as [k|e]; [|done].
      destruct (find_one (key_query q k) (jobs s)) as [j|] eqn:Hf; [|done].
      destruct (find_one_Some _ _ _ Hf) as (l1 & l2 & Hl & Hq & Hn). simpl.
      apply andb_true_iff in Hwf as [_ Hu]. rewrite Hl in Hu |- *.
      rewrite update_first_at;
        [| by apply (ids_unique_first l1 j l2) | by unfold id_query; apply N.eqb_refl].
      apply key_query_iff in Hq as (Hrs & Hqn & _).
      apply filter_replace; apply (belongs_other q q'); try done;
        unfold belongs; simpl; by rewrite Hrs, Hqn, !String.eqb_refl.
    - apply filter_remove_disjoint. intros j Hd. apply (belongs_other q q'); [done|].
      apply done_query_iff in Hd as (Hrs & Hqn & _).
      unfold belongs. by rewrite Hrs, Hqn, !String.eqb_refl. }
  assert (Hlen : len q' (step s o) = len q' s).
  { unfold len. by rewrite !count_open_filter, Hfilter. }
  split_and!; [done.. |]. unfold has_next. by rewrite Hlen.
Qed.

Lemma other_queue_untouched_witness :
  let q := mkQueue "TEST_QUEUE" "foobar" in
  let q' := mkQueue "TEST_QUEUE" "other" in
  let s := mkStore [mkJob 0%N "foobar" "TEST_QUEUE" OPEN (VInt 1) 2 7 None;
                    mkJob 1%N "other" "TEST_QUEUE" OPEN (VInt 1) 2 8 None] 2%N in
  let o := MarkFailed q (VInt 1) in
  wf s = true ∧
  (name (op_queue o) ≠ name q' ∨ config_RS (op_queue o) ≠ config_RS q') ∧
  len q (step s o) = 0 ∧ len q' (step s o) = 1.
Proof.
  intros q q' s o.
  assert (Hne : name (op_queue o) ≠ name q' ∨ config_RS (op_queue o) ≠ config_RS q')
    by (right; discriminate).
  split_and!; [reflexivity | exact Hne | reflexivity |].
  destruct (other_queue_untouched s o q' eq_refl Hne) as (_ & -> & _). reflexivity.
Defined.

(** *** What no call undoes *)

Lemma In_find_and_modify_cases query update l j' :
  In j' (snd (find_and_modify query update l)) →
  In j' l ∨ ∃ j0, In j0 l ∧ j' = update j0.
Proof.
  induction l as [|a l IH]; simpl; [done|].
  destruct (query a); simpl.
  - intros [<-|H]; [right; exists a; split; [by left | done] | left; by right].
  - destruct (find_and_modify query update l). simpl in *.
    intros [<-|H]; [left; by left|].
    destruct (IH H) as [?|(j0 & ? & ?)]; [left; by right|].
    right. exists j0. split; [by right | done].
Qed.

Lemma In_update_first_cases query update l j' :
  In j' (update_first query update l) →
  In j' l ∨ ∃ j0, In j0 l ∧ query j0 = true ∧ j' = update j0.
Proof.
  induction l as [|a l IH]; simpl; [done|].
  destruct (query a) eqn:E; simpl.
  - intros [<-|H]; [right; exists a; split_and!; [by left | done..] | left; by right].
  - intros [<-|H]; [left; by left|].
    destruct (IH H) as [?|(j0 & ? & ? & ?)]; [left; by right|].
    right. exists j0. split_and!; [by right | done..].
Qed.

Lemma step_closed s o i : closed i s → closed i (step s o).
Proof.
  intros [Hlt Hno].
  destruct o as [q now a | q now | q now a | q a | q]; simpl.
  - destruct (key_of a) as [k|e] eqn:Hk; [|by unfold add; rewrite Hk].
    rewrite (add_unfold _ _ _ _ _ Hk).
    destruct (existsb _ _); simpl; [done|]. split; simpl; [lia|].
    intros j Hj. apply in_app_or in Hj as [Hj|[<-|[]]]; [by apply Hno|].
    simpl. lia.
  - rewrite get_store. split; [done|]. simpl. intros j Hj Hid.
    apply In_find_and_modify_cases in Hj as [Hj|(j0 & Hj0 & ->)]; [by apply Hno|].
    done.
  - unfold resolve_job. destruct (key_of a) as [k|e]; [|done].
    pose proof (In_find_and_modify_cases (key_query q k)
                  (set_status_modified DONE now) (jobs s)) as Hc.
    destruct (find_and_modify _ _ _) as [r l]. simpl in *. split; [done|].
    intros j Hj Hid. apply Hc in Hj as [Hj|(j0 & Hj0 & ->)]; [by apply Hno|]. done.
  - unfold mark_failed. destruct (key_of a) as [k|e]; [|done].
    destruct (find_one _ _) as [job|]; [|done]. simpl. split; [done|].
    intros j Hj Hid.
    apply In_update_first_cases in Hj as [Hj|(j0 & Hj0 & _ & ->)]; [by apply Hno|].
    simpl in *. destruct (2 <=? job_failures job); [done|]. by apply Hno.
  - split; [done|]. simpl. intros j Hj. apply In_remove in Hj as [Hj _].
    by apply Hno.
Qed.

(** X9: no call re-opens a job.  Once a job is not OPEN (claimed by [get],
    resolved or failed), no sequence of calls makes a document with its
    ObjectId OPEN again, so [get] never hands it out a second time. *)
Theorem claimed_job_never_reopened ops s j :
  wf s = true → In j (jobs s) → job_status_of j ≠ OPEN →
  ∀ j', In j' (jobs (run ops s)) → job_id j' = job_id j → job_status_of j' ≠ OPEN.
Proof.
  intros Hwf Hj Hst.
  assert (Hc : closed (job_id j) s).
  { apply andb_true_iff in Hwf as [Hb Hu]. split.
    - apply N.ltb_lt. by apply (proj1 (forallb_forall _ _) Hb).
    - intros j' Hj' Hid. by rewrite (ids_unique_inj _ _ _ Hu Hj' Hj Hid). }
  clear Hwf Hj Hst. revert s Hc.
  induction ops as [|o ops IH]; intros s Hc; [exact (proj2 Hc)|].
  simpl. apply IH. by apply step_closed.
Qed.

Lemma claimed_job_never_reopened_witness :
  let q := mkQueue "TEST_QUEUE" "foobar" in
  let j := mkJob 0%N "foobar" "TEST_QUEUE" IN_PROGRESS (VInt 1) 0 7 None in
  let s := mkStore [j] 1%N in
  let ops := [MarkFailed q (VInt 1); MarkFailed q (VInt 1); Add q 8 (VInt 1); Get q 9] in
  wf s = true ∧ In j (jobs s) ∧ job_status_of j ≠ OPEN ∧
  fst (get q 9 (run ops s)) = Err TypeError ∧
  ∀ j', In j' (jobs (run ops s)) → job_id j' = job_id j → job_status_of j' ≠ OPEN.
Proof.
  intros q j s ops.
  split_and!; [reflexivity | by left | discriminate | reflexivity |].
  apply (claimed_job_never_reopened ops s j); [reflexivity | by left | discriminate].
Defined.

Lemma step_failures_sound s o :
  wf s = true →
  (∀ j, In j (jobs s) → failures_sound j) →
  ∀ j, In j (jobs (step s o)) → failures_sound j.
Proof.
  intros Hwf H. destruct o as [q now a | q now | q now a | q a | q]; simpl.
  - destruct (key_of a) as [k|e] eqn:Hk; [|by unfold add; rewrite Hk].
    rewrite (add_unfold _ _ _ _ _ Hk).
    destruct (existsb _ _); simpl; [done|].
    intros j Hj. apply in_app_or in Hj as [Hj|[<-|[]]]; [by apply H|].
    split; simpl; [lia | done].
  - rewrite get_store. simpl. intros j Hj.
    apply In_find_and_modify_cases in Hj as [Hj|(j0 & Hj0 & ->)]; [by apply H|].
    destruct (H j0 Hj0). split; simpl; [done | done].
  - unfold resolve_job. destruct (key_of a) as [k|e]; [|done].
    pose proof (In_find_and_modify_cases (key_query q k)
                  (set_status_modified DONE now) (jobs s)) as Hc.
    destruct (find_and_modify _ _ _) as [r l]. simpl in *.
    intros j Hj. apply Hc in Hj as [Hj|(j0 & Hj0 & ->)]; [by apply H|].
    destruct (H j0 Hj0). split; simpl; [done | done].
  - unfold mark_failed. destruct (key_of a) as [k|e]; [|done].
    destruct (find_one (key_query q k) (jobs s)) as [job|] eqn:Hf; [|done]. simpl.
    intros j Hj.
    apply In_update_first_cases in Hj as [Hj|(j0 & Hj0 & Hid & ->)]; [by apply H|].
    apply find_one_In_job in Hf as [Hjob _].
    apply andb_true_iff in Hwf as [_ Hu]. apply N.eqb_eq in Hid.
    rewrite (ids_unique_inj _ _ _ Hu Hj0 Hjob Hid).
    destruct (H job Hjob) as [H0 Hfailed]. split; simpl; [lia|].
    destruct (Z.leb_spec 2 (job_failures job)); [lia|].
    intros Hst. specialize (Hfailed Hst). lia.
  - intros j Hj. apply In_remove in Hj as [Hj _]. by apply H.
Qed.

(** X10: in every store the calls can reach from an empty collection, a
    failure counter is never negative and a FAILED job has failed three
    times or more. *)
Theorem reachable_failures_sound s j :
  reachable s → In j (jobs s) →
  0 ≤ job_failures j ∧ (job_status_of j = FAILED → 3 ≤ job_failures j).
Proof.
  intros [ops ->].
  assert (Hinv : ∀ ops s, wf s = true → (∀ j, In j (jobs s) → failures_sound j) →
                          ∀ j, In j (jobs (run ops s)) → failures_sound j).
  { clear. induction ops as [|o ops IH]; intros s Hwf H; [exact H|].
    simpl. apply IH; [by apply step_wf | by apply step_failures_sound]. }
  apply (Hinv ops empty); [done | intros ? []].
Qed.

Lemma reachable_failures_sound_witness :
  let q := mkQueue "TEST_QUEUE" "foobar" in
  let s := run [Add q 1 (VInt 1); MarkFailed q (VInt 1); Get q 2;
                MarkFailed q (VInt 1); MarkFailed q (VInt 1); MarkFailed q (VInt 1)]
               empty in
  let j := mkJob 0%N "foobar" "TEST_QUEUE" FAILED (VInt 1) 4 2 None in
  reachable s ∧ In j (jobs s) ∧
  0 ≤ job_failures j ∧ (job_status_of j = FAILED → 3 ≤ job_failures j).
Proof.
  intros q s j.
  assert (Hr : reachable s) by by eexists.
  assert (Hj : In j (jobs s)) by by left.
  split; [done|]. split; [done|]. exact (reachable_failures_sound s j Hr Hj).
Defined.

(** *** Draining a queue *)

Lemma len_get q now s :
  len q (snd (get q now s)) = Z.max 0 (len q s - 1).
Proof.
  unfold get, len.
  destruct (find_one (open_query q) (jobs s)) as [j|] eqn:Hf.
  - destruct (find_one_Some _ _ _ Hf) as (l1 & l2 & Hl & Hq & Hn).
    rewrite Hl, (find_and_modify_at _ _ _ _ _ Hn Hq). cbn [snd jobs with_jobs].
    rewrite !count_app. simpl. rewrite Hq.
    replace (open_query q (set_status_modified IN_PROGRESS now j)) with false.
    + pose proof (count_nonneg (open_query q) l1).
      pose proof (count_nonneg (open_query q) l2). lia.
    + symmetry. unfold open_query. simpl. by rewrite andb_false_r.
  - rewrite (find_and_modify_None _ _ _ Hf). cbn [snd].
    apply count_zero in Hf. rewrite Hf. done.
Qed.

(** X11: every [get] takes one job off the queue until none is left.
    After [get] has been called once for each of the given times, raising
    or not, the length of the queue is what it was minus the number of
    calls, and zero if there were more calls than OPEN jobs. *)
Theorem gets_drain_queue q times s :
  len q (run (map (Get q) times) s) =
  Z.max 0 (len q s - Z.of_nat (length times)).
Proof.
  revert s. induction times as [|t times IH]; intros s.
  - simpl. pose proof (count_nonneg (open_query q) (jobs s)). unfold len. lia.
  - cbn [map run fold_left]. change (fold_left step ?l ?x) with (run l x).
    rewrite IH. cbn [step]. rewrite len_get. cbn [length]. lia.
Qed.

End QueueMore.

(** ** The synchroniser *)

Section Synchroniser.
Import Mongo.

Variable AGS : string.
Variable md5_hexdigest : string → string.

Abbreviation get_object := (Mongo.get_object AGS).
Abbreviation save_attachment := (Mongo.save_attachment AGS md5_hexdigest).
Abbreviation save_attachments := (Mongo.save_attachments AGS md5_hexdigest).
Abbreviation save_submission := (Mongo.save_submission AGS md5_hexdigest).
Abbreviation dereference_attachments := (Mongo.dereference_attachments AGS md5_hexdigest).
Abbreviation dereference_superordinate := (Mongo.dereference_superordinate AGS).
Abbreviation file_differs := (Mongo.file_differs md5_hexdigest).
Abbreviation fs_put := (Mongo.fs_put AGS md5_hexdigest).

(** *** What the calls leave alone *)

Lemma puts_app l1 l2 : puts (l1 ++ l2) = puts l1 ++ puts l2.
Proof. apply List.filter_app. Qed.

Lemma update_frame name id set s :
  ∃ s', update name id set s = (Ok tt, s') ∧
    fs_files s' = fs_files s ∧ next_id s' = next_id s ∧
    writes s' = writes s ++ [Update name id set] ∧
    (name = "attachments" → submissions s' = submissions s).
Proof.
  eexists. split; [reflexivity|]. simpl. split_and!; try done.
  intros ->. done.
Qed.

Lemma insert_attachments_frame document s r s' :
  insert "attachments" document s = (r, s') →
  fs_files s' = fs_files s ∧ submissions s' = submissions s ∧
  (next_id s ≤ next_id s')%N ∧
  writes s' = writes s ++ [Insert "attachments" document].
Proof.
  unfold insert. destruct (document !! "_id"); [destruct (existsb _ _)|];
    intros [= <- <-]; simpl; split_and!; try done; lia.
Qed.

Lemma fs_put_frame content filename s :
  ∃ s', fs_put content filename s = (Ok (next_id s), s') ∧
    attachments s' = attachments s ∧ submissions s' = submissions s ∧
    next_id s' = N.succ (next_id s) ∧
    fs_files s' = fs_files s ++
      [mkFile (next_id s) (Z.of_nat (String.length content))
              (md5_hexdigest content) filename AGS] ∧
    writes s' = writes s ++ [FsPut (next_id s) content filename AGS].
Proof. eexists. split; [reflexivity|]. done. Qed.

(** *** [save_attachment] on a stored attachment whose blob is there *)




(** *** Syncing the same attachment again *)

(** On an attachment that is stored with its blob and comes again with the
    same content and no ['file'] entry of its own, [save_attachment] writes
    no blob and sends an update that carries the stored ['file'] reference
    and the fresh ['last_modified'], whatever else has changed or not. *)
Lemma resync_rewrites_file attachment s stored c i f cv lm oid :
  get_object "attachments" "identifier" (identifier attachment) s = Some stored →
  stored !! "file" = Some (VRef c i) →
  files_find_one i (fs_files s) = Some f →
  file_differs f (content attachment) = false →
  dict attachment !! "file" = None →
  dict attachment !! "content" = Some cv →
  dict attachment !! "last_modified" = Some lm →
  stored !! "_id" = Some oid →
  ∃ s',
    save_attachment attachment s = (Ok oid, s') ∧
    fs_files s' = fs_files s ∧
    writes s' =
      writes s ++
      [Update "attachments" oid
         (<["last_modified" := lm]>
            (<["file" := VRef c i]>
               (Mongo.changed_fields stored
                  (<["ags" := VStr AGS]> (delete "content" (dict attachment))))))].
Proof.
  intros Hst Hfile Hf Hsame Hnofile Hcontent Hlm Hid.
  assert (Hfresh_file :
    (<["ags" := VStr AGS]> (delete "content" (dict attachment)) : gmap string value)
      !! "file" = None).
  { by rewrite lookup_insert_ne, lookup_delete_ne. }
  assert (Hfresh_lm :
    (<["ags" := VStr AGS]> (delete "content" (dict attachment)) : gmap string value)
      !! "last_modified" = Some lm).
  { by rewrite lookup_insert_ne, lookup_delete_ne. }
  unfold Mongo.save_attachment, bind, gets, ret, raise, getitem.
  rewrite Hst. cbv beta iota. rewrite Hfile. cbv beta iota. rewrite Hf.
  cbv beta iota. rewrite Hsame. cbn [andb orb]. cbv beta iota.
  rewrite Hcontent. cbv beta iota. rewrite Hid. cbv beta iota.
  rewrite Hfresh_file.
  rewrite bool_decide_eq_false_2 by apply insert_non_empty.
  cbn [negb]. cbv beta iota. rewrite Hfresh_lm. cbv beta iota.
  eexists. split; [reflexivity|]. done.
Qed.

(** *** [save_submission] *)

Ltac crunch :=
  repeat (cbv beta iota;
          match goal with
          | |- context [match ?x with Some _ => _ | None => _ end] =>
              destruct x eqn:?
          | |- context [match ?x with VRef _ _ => _ | _ => _ end] =>
              destruct x eqn:?
          | |- context [if ?b then _ else _] => destruct b eqn:?
          end).

(** [save_attachment] never touches the submissions and never takes an
    ObjectId back, whether it returns or raises. *)
Lemma save_attachment_frame attachment s :
  submissions (snd (save_attachment attachment s)) = submissions s ∧
  (next_id s ≤ next_id (snd (save_attachment attachment s)))%N.
Proof.
  unfold Mongo.save_attachment, getitem, Mongo.fs_put, insert, update,
    bind, gets, ret, raise.
  crunch; cbv beta iota zeta;
    cbn [snd fst submissions next_id log with_collection String.eqb
         Ascii.eqb Bool.eqb]; split; try done; lia.
Qed.

Lemma save_attachments_frame l : ∀ s r s',
  save_attachments l s = (r, s') →
  submissions s' = submissions s ∧ (next_id s ≤ next_id s')%N.
Proof.
  induction l as [|a l IH]; intros s r s'.
  { intros [= <- <-]. split; [done | lia]. }
  cbn [Mongo.save_attachments]. unfold bind.
  pose proof (save_attachment_frame a s) as [Hs Hn].
  destruct (save_attachment a s) as [[oid|e] s1]; cbn [snd] in *.
  2: { intros [= <- <-]. by split. }
  destruct (save_attachments l s1) as [[refs|e] s2] eqn:E;
    apply IH in E as [Hs' Hn']; intros [= <- <-]; (split; [congruence | lia]).
Qed.

Lemma dereference_attachments_frame l fresh s fresh1 s1 :
  dereference_attachments l fresh s = (Ok fresh1, s1) →
  submissions s1 = submissions s ∧ (next_id s ≤ next_id s1)%N ∧
  ∀ k, k ≠ "attachments" → fresh1 !! k = fresh !! k.
Proof.
  destruct l as [l|]; cbn [Mongo.dereference_attachments].
  - unfold bind.
    destruct (save_attachments l s) as [[refs|e] s2] eqn:E; [|done].
    apply save_attachments_frame in E as [Hs Hn].
    intros [= <- <-]. split_and!; [done.. |].
    intros k Hk. by rewrite lookup_insert_ne.
  - intros [= <- <-]. split_and!; [done | lia | done].
Qed.


Lemma find_one_In query l d : find_one query l = Some d → In d l ∧ query d = true.
Proof.
  induction l as [|a l IH]; simpl; [done|].
  destruct (query a) eqn:E; [intros [= <-]; by split; [left|]|].
  intros H. destruct (IH H). split; [by right | done].
Qed.

Lemma find_one_first query l d :
  In d l → query d = true → (∀ a, In a l → query a = true → a = d) →
  find_one query l = Some d.
Proof.
  induction l as [|a l IH]; simpl; [done|].
  intros Hd Hq Huniq. destruct (query a) eqn:E.
  - f_equal. apply Huniq; [by left | done].
  - destruct Hd as [->|Hd]; [congruence|].
    apply IH; [done.. |]. intros b Hb. apply Huniq. by right.
Qed.

Lemma find_one_update_first query upd l d :
  find_one query l = Some d → query (upd d) = true →
  find_one query (update_first query upd l) = Some (upd d).
Proof.
  induction l as [|a l IH]; simpl; [done|].
  destruct (query a) eqn:E.
  - intros [= ->] Hq. simpl. by rewrite Hq.
  - intros H Hq. simpl. rewrite E. by apply IH.
Qed.

Lemma find_one_snoc query l d :
  (∀ a, In a l → query a = false) → query d = true →
  find_one query (l ++ [d]) = Some d.
Proof.
  induction l as [|a l IH]; simpl; intros Hno Hq; [by rewrite Hq|].
  rewrite (Hno a) by by left. apply IH; [|done].
  intros b Hb. apply Hno. by right.
Qed.

Lemma field_is_id d i j :
  d !! "_id" = Some i → field_is "_id" j d = true ↔ i = j.
Proof. intros H. unfold field_is. rewrite H. apply value_eqb_eq. Qed.

Lemma doc_ids_unique_inj l a b i :
  Mongo.ids_unique l = true → In a l → In b l →
  a !! "_id" = Some i → b !! "_id" = Some i → a = b.
Proof.
  induction l as [|c l IH]; simpl; [done|].
  intros Hu Ha Hb Hai Hbi. apply andb_true_iff in Hu as [Hc Hl].
  assert (Hno : ∀ x, In x l → x !! "_id" = Some i → c !! "_id" = Some i → False).
  { intros x Hx Hxi Hci. rewrite Hci in Hc. apply negb_true_iff in Hc.
    assert (existsb (field_is "_id" i) l = true); [|congruence].
    apply existsb_exists. exists x. split; [done|]. by apply (field_is_id x i i). }
  destruct Ha as [->|Ha], Hb as [->|Hb]; [done | | | by apply IH].
  - destruct (Hno b Hb Hbi Hai).
  - destruct (Hno a Ha Hai Hbi).
Qed.

Lemma wf_submissions_id s d :
  wf_submissions s = true → In d (submissions s) →
  ∃ i, d !! "_id" = Some (VOid i) ∧ (i < next_id s)%N.
Proof.
  intros Hwf Hd. apply andb_true_iff in Hwf as [Hb _].
  apply (proj1 (forallb_forall _ _) Hb) in Hd. unfold id_below in Hd.
  destruct (d !! "_id") as [[]|]; try done.
  eexists. split; [done|]. by apply N.ltb_lt.
Qed.

Lemma changed_fields_lookup stored fresh k :
  Mongo.changed_fields stored fresh !! k =
  match fresh !! k with
  | None => None
  | Some v =>
      if String.eqb k "last_modified" then None
      else match stored !! k with
           | None => Some v
           | Some w => if value_eqb w v then None else Some v
           end
  end.
Proof.
  unfold Mongo.changed_fields. rewrite map_lookup_imap.
  by destruct (fresh !! k).
Qed.

(** After the partial update, or without one when nothing has changed, the
    stored document agrees with the fresh one on every field of the fresh
    one other than ['last_modified']. *)
Lemma changed_fields_applied stored fresh k v extra :
  fresh !! k = Some v → k ≠ "last_modified" →
  (Mongo.changed_fields stored fresh = ∅ → stored !! k = Some v) ∧
  ((<["last_modified" := extra]> (Mongo.changed_fields stored fresh) ∪ stored)
     !! k = Some v).
Proof.
  intros Hk Hne.
  pose proof (changed_fields_lookup stored fresh k) as Hc.
  rewrite Hk in Hc. apply String.eqb_neq in Hne. rewrite Hne in Hc.
  assert (Hcases :
    Mongo.changed_fields stored fresh !! k = Some v ∨
    (Mongo.changed_fields stored fresh !! k = None ∧ stored !! k = Some v)).
  { destruct (stored !! k) as [w|]; [|by left].
    destruct (value_eqb w v) eqn:E; [|by left].
    right. split; [done|]. f_equal. by apply value_eqb_eq. }
  apply String.eqb_neq in Hne. split.
  - intros He. rewrite He, lookup_empty in Hcases.
    by destruct Hcases as [?|[_ ?]].
  - apply lookup_union_Some_raw. rewrite lookup_insert_ne by done.
    destruct Hcases as [?|[? ?]]; [by left | by right].
Qed.

Lemma wf_submissions_mono s s1 :
  wf_submissions s = true → submissions s1 = submissions s →
  (next_id s ≤ next_id s1)%N → wf_submissions s1 = true.
Proof.
  unfold wf_submissions. intros Hwf Hs Hn. rewrite Hs.
  apply andb_true_iff in Hwf as [Hb Hu]. apply andb_true_iff. split; [|done].
  apply forallb_forall. intros d Hd.
  apply (proj1 (forallb_forall _ _) Hb) in Hd. unfold id_below in *.
  destruct (d !! "_id") as [[]|]; try done.
  apply N.ltb_lt in Hd. apply N.ltb_lt. lia.
Qed.

(** The stored document found by its natural key is the one its ['_id']
    finds. *)
Lemma find_one_by_id s query stored :
  wf_submissions s = true →
  find_one query (submissions s) = Some stored →
  ∃ i, stored !! "_id" = Some (VOid i) ∧
       find_one (field_is "_id" (VOid i)) (submissions s) = Some stored.
Proof.
  intros Hwf Hf. apply find_one_In in Hf as [Hin _].
  destruct (wf_submissions_id s stored Hwf Hin) as (i & Hi & _).
  exists i. split; [done|].
  apply find_one_first; [done | by apply (field_is_id stored (VOid i)) |].
  intros a Ha Hq. destruct (wf_submissions_id s a Hwf Ha) as (j & Hj & _).
  apply (field_is_id a (VOid j)) in Hq; [|done].
  apply andb_true_iff in Hwf as [_ Hu].
  apply (doc_ids_unique_inj _ _ _ (VOid i) Hu); congruence.
Qed.



End Synchroniser.

(** *** The synchroniser on the sample data *)

Section SynchroniserExamples.
Import Mongo.



(** C1 on the code: the sample attachment is synced into an empty store,
    which puts one blob and inserts one document, and then synced again
    unchanged.  The second call puts no blob but does send an update: the
    stored ['file'] reference is carried into [set_attributes], which is
    then never empty.  This holds under any digest. *)
Theorem resync_unchanged_attachment_updates :
  ∀ digest : string → string,
    let attachment := sample_attachment "hello" in
    let s1 := snd (save_attachment "07" digest attachment empty) in
    attachments s1 = [sample_stored] ∧
    writes s1 =
      [FsPut 0%N "hello" (VStr "f.pdf") "07";
       Insert "attachments" (delete "_id" sample_stored)] ∧
    ∃ s2,
      save_attachment "07" digest attachment s1 = (Ok (VOid 1%N), s2) ∧
      fs_files s2 = fs_files s1 ∧
      writes s2 =
        writes s1 ++
        [Update "attachments" (VOid 1%N)
           (list_to_map [("file", VRef "fs.files" (VOid 0%N));
                         ("last_modified", VTime 5)])].
Proof.
  intros digest attachment s1.
  assert (Hs1 : s1 =
    mkDb [sample_stored] []
         [mkFile 0%N 5 (digest "hello") (VStr "f.pdf") "07"] 2%N
         [FsPut 0%N "hello" (VStr "f.pdf") "07";
          Insert "attachments" (delete "_id" sample_stored)])
    by (vm_compute; reflexivity).
  rewrite Hs1. split_and!; [done.. |].
  destruct (resync_rewrites_file "07" digest attachment
              (mkDb [sample_stored] []
                 [mkFile 0%N 5 (digest "hello") (VStr "f.pdf") "07"] 2%N
                 [FsPut 0%N "hello" (VStr "f.pdf") "07";
                  Insert "attachments" (delete "_id" sample_stored)])
              sample_stored "fs.files" (VOid 0%N)
              (mkFile 0%N 5 (digest "hello") (VStr "f.pdf") "07")
              (VStr "hello") (VTime 5) (VOid 1%N))
    as (s2 & E & Hfs & Hw); try (vm_compute; reflexivity).
  { unfold file_differs. cbn. by rewrite String.eqb_refl. }
  exists s2. split_and!; [done.. |]. rewrite Hw. vm_compute. reflexivity.
Qed.


(** The child is synced before its superordinate and keeps the literal
    data; the superordinate is synced; the child is synced again and now
    holds a reference to it. *)
Example superordinate_resolved_on_resync :
  let digest := λ c : string, c in
  let items := [("identifier", VStr "S-7"); ("numeric_id", VInt 7)] in
  let s1 := snd (save_submission "07" digest sample_child empty) in
  let s2 := snd (save_submission "07" digest sample_parent s1) in
  let s3 := snd (save_submission "07" digest sample_child s2) in
  fst (save_submission "07" digest sample_child empty) = Ok (VOid 0%N) ∧
  (get_object "07" "submissions" "numeric_id" (VInt 8) s1
     ≫= (.!! "superordinate")) = Some (VDict items) ∧
  fst (save_submission "07" digest sample_parent s1) = Ok (VOid 3%N) ∧
  fst (save_submission "07" digest sample_child s2) = Ok (VOid 0%N) ∧
  (get_object "07" "submissions" "numeric_id" (VInt 8) s3
     ≫= (.!! "superordinate")) = Some (VRef "submissions" (VOid 3%N)).
Proof. vm_compute. done. Qed.

End SynchroniserExamples.

(** ** The synchroniser: lookups, blobs and round trips *)

Section SynchroniserMore.
Import Mongo.

Variable AGS : string.
Variable md5_hexdigest : string → string.

Abbreviation get_object := (Mongo.get_object AGS).
Abbreviation get_object_id := (Mongo.get_object_id AGS).
Abbreviation attachment_exists := (Mongo.attachment_exists AGS).
Abbreviation submission_exists := (Mongo.submission_exists AGS).
Abbreviation save_attachment := (Mongo.save_attachment AGS md5_hexdigest).
Abbreviation save_attachments := (Mongo.save_attachments AGS md5_hexdigest).
Abbreviation save_submission := (Mongo.save_submission AGS md5_hexdigest).
Abbreviation dereference_attachments := (Mongo.dereference_attachments AGS md5_hexdigest).
Abbreviation dereference_superordinate := (Mongo.dereference_superordinate AGS).
Abbreviation file_differs := (Mongo.file_differs md5_hexdigest).

Ltac cases :=
  repeat (cbv beta iota;
          match goal with
          | |- context [match ?x with Some _ => _ | None => _ end] =>
              destruct x eqn:?
          | |- context [match ?x with VRef _ _ => _ | _ => _ end] =>
              destruct x eqn:?
          | |- context [if ?b then _ else _] => destruct b eqn:?
          end).

Lemma field_is_Some k v d :
  field_is k v d = true ↔ d !! k = Some v ∨ (d !! k = None ∧ v = VNone).
Proof.
  unfold field_is. destruct (d !! k) as [w|].
  - rewrite value_eqb_eq. split; [intros ->; by left | intros [[= ->]|[? _]]; done].
  - rewrite value_eqb_eq. split; [intros <-; by right | intros [?|[_ ->]]; done].
Qed.

Lemma find_one_None_iff query l :
  find_one query l = None ↔ ∀ d, In d l → query d = false.
Proof.
  induction l as [|a l IH]; simpl.
  - split; [intros _ d [] | done].
  - destruct (query a) eqn:Ha.
    + split; [discriminate|]. intros H. specialize (H a (or_introl eq_refl)). congruence.
    + rewrite IH. split.
      * intros H d [<-|Hd]; auto.
      * intros H d Hd. apply H. by right.
Qed.

(** Where [find_one] finds its document: nothing before it matches. *)
Lemma find_one_split query l d :
  find_one query l = Some d →
  ∃ l1 l2, l = l1 ++ d :: l2 ∧ query d = true ∧ find_one query l1 = None.
Proof.
  induction l as [|a l IH]; simpl; [discriminate|].
  destruct (query a) eqn:Ha.
  - intros [= ->]. by exists [], l.
  - intros H. destruct (IH H) as (l1 & l2 & -> & Hq & Hn).
    exists (a :: l1), l2. simpl. by rewrite Ha.
Qed.

Lemma find_one_middle query l1 d l2 :
  find_one query l1 = None → query d = true →
  find_one query (l1 ++ d :: l2) = Some d.
Proof.
  induction l1 as [|a l1 IH]; simpl; intros Hn Hq.
  - by rewrite Hq.
  - destruct (query a); [discriminate|]. by apply IH.
Qed.

Lemma update_first_middle query upd l1 d l2 :
  find_one query l1 = None → query d = true →
  update_first query upd (l1 ++ d :: l2) = l1 ++ upd d :: l2.
Proof.
  induction l1 as [|a l1 IH]; simpl; intros Hn Hq.
  - by rewrite Hq.
  - destruct (query a); [discriminate|]. by rewrite IH.
Qed.


(** *** First syncs, blobs and failures of [save_attachment] *)

(** X13: an attachment that is not stored yet costs exactly one blob and
    one document.  The blob records the content's length and digest, so it
    compares as unchanged against that content; the document is [dict()]
    without ['content'], with the realm and a ['file'] reference to the new
    blob; its new ['_id'] is returned. *)
Theorem save_new_attachment attachment s cv :
  get_object "attachments" "identifier" (identifier attachment) s = None →
  dict attachment !! "content" = Some cv →
  dict attachment !! "_id" = None →
  let blob := mkFile (next_id s) (Z.of_nat (String.length (content attachment)))
                     (md5_hexdigest (content attachment)) (filename attachment) AGS in
  let fresh := <["ags" := VStr AGS]>
                 (delete "content"
                    (<["file" := VRef "fs.files" (VOid (next_id s))]> (dict attachment))) in
  let oid := VOid (N.succ (next_id s)) in
  save_attachment attachment s =
    (Ok oid,
     mkDb (attachments s ++ [<["_id" := oid]> fresh]) (submissions s)
          (fs_files s ++ [blob]) (N.succ (N.succ (next_id s)))
          (writes s ++ [FsPut (next_id s) (content attachment) (filename attachment) AGS;
                        Insert "attachments" fresh])) ∧
  file_differs blob (content attachment) = false ∧
  (<["_id" := oid]> fresh : gmap string value) !! "content" = None ∧
  (<["_id" := oid]> fresh : gmap string value) !! "file"
    = Some (VRef "fs.files" (VOid (next_id s))) ∧
  (<["_id" := oid]> fresh : gmap string value) !! "ags" = Some (VStr AGS).
Proof.
  intros Hst Hc Hid blob fresh oid. split_and!.
  - unfold Mongo.save_attachment, getitem, Mongo.fs_put, insert, bind, gets, ret, raise.
    rewrite Hst. cbv beta iota zeta.
    rewrite lookup_insert_ne by done. rewrite Hc. cbv beta iota.
    cbn [log attachments submissions fs_files next_id writes].
    rewrite lookup_insert_ne by done. rewrite lookup_delete_ne by done.
    rewrite lookup_insert_ne by done. rewrite Hid.
    cbn [with_collection collection log attachments submissions fs_files next_id
         writes String.eqb Ascii.eqb Bool.eqb].
    by rewrite <- app_assoc.
  - unfold Mongo.file_differs, blob. simpl. by rewrite Z.eqb_refl, String.eqb_refl.
  - subst fresh. rewrite lookup_insert_ne by done. rewrite lookup_insert_ne by done.
    by rewrite lookup_delete_eq.
  - subst fresh. rewrite lookup_insert_ne by done. rewrite lookup_insert_ne by done.
    rewrite lookup_delete_ne by done. by rewrite lookup_insert_eq.
  - subst fresh. rewrite lookup_insert_ne by done. by rewrite lookup_insert_eq.
Qed.

(** X14: [save_attachment] takes no blob away and changes none: whether it
    returns or raises, the blob store afterwards is the one before with at
    most one blob added at the end.  The same holds for [save_submission],
    with at most one new blob per attachment of the submission. *)
Theorem blobs_only_appended :
  (∀ attachment s, ∃ new,
     fs_files (snd (save_attachment attachment s)) = fs_files s ++ new ∧
     (length new ≤ 1)%nat) ∧
  (∀ submission s, ∃ new,
     fs_files (snd (save_submission submission s)) = fs_files s ++ new ∧
     (length new ≤ match submission_attachments submission with
                   | Some l => length l
                   | None => 0
                   end)%nat).
Proof.
  assert (Hone : ∀ attachment s, ∃ new,
     fs_files (snd (save_attachment attachment s)) = fs_files s ++ new ∧
     (length new ≤ 1)%nat).
  { intros attachment s.
    unfold Mongo.save_attachment, getitem, Mongo.fs_put, insert, update,
      bind, gets, ret, raise.
    cases; cbv beta iota zeta;
      cbn [snd fst fs_files log with_collection];
      first [ by exists []; rewrite app_nil_r; split; [done | simpl; lia]
            | by eexists [_]; split; [done | simpl; lia] ]. }
  assert (Hmany : ∀ l s, ∃ new,
     fs_files (snd (save_attachments l s)) = fs_files s ++ new ∧
     (length new ≤ length l)%nat).
  { induction l as [|a l IH]; intros s.
    - exists []. rewrite app_nil_r. split; [done | simpl; lia].
    - cbn [Mongo.save_attachments]. unfold bind.
      destruct (Hone a s) as (n1 & H1 & L1).
      destruct (save_attachment a s) as [[oid|e] s1]; cbn [snd] in *.
      2: { exists n1. split; [done | simpl; lia]. }
      destruct (IH s1) as (n2 & H2 & L2).
      destruct (save_attachments l s1) as [[refs|e] s2]; unfold ret; cbn [snd] in *;
        exists (n1 ++ n2); rewrite H2, H1, <- app_assoc, length_app;
        (split; [done | simpl; lia]). }
  split; [exact Hone|]. intros submission s.
  assert (Hatt : ∃ new,
    fs_files (snd (dereference_attachments (submission_attachments submission)
                     (<["ags" := VStr AGS]> (submission_dict submission)) s))
      = fs_files s ++ new ∧
    (length new ≤ match submission_attachments submission with
                  | Some l => length l
                  | None => 0
                  end)%nat).
  { unfold Mongo.dereference_attachments.
    destruct (submission_attachments submission) as [l|].
    - unfold bind. destruct (Hmany l s) as (new & H & L).
      destruct (save_attachments l s) as [[refs|e] s1]; by exists new.
    - exists []. rewrite app_nil_r. by split. }
  destruct Hatt as (new & Hnew & Lnew). exists new. split; [|done].
  unfold Mongo.save_submission, bind at 1, gets. unfold bind at 1.
  destruct (dereference_attachments _ _ s) as [[fresh1|e] s1]; cbn [snd] in *; [|done].
  rewrite <- Hnew.
  unfold bind, Mongo.dereference_superordinate, Mongo.store_submission, subscript,
    getitem, insert, update, bind, gets, ret, raise.
  cases; cbv beta iota zeta; cbn [snd fst fs_files log with_collection];
    repeat (match goal with
            | |- context [match ?x with VDict _ => _ | _ => _ end] => destruct x
            end; cases; cbv beta iota zeta; cbn [snd fst fs_files log with_collection]);
    done.
Qed.

(** X15: a stored attachment that carries ['depublication'] never gets a
    new blob, whatever its content and whether the call returns or
    raises. *)
Theorem depublished_never_stored attachment s stored :
  get_object "attachments" "identifier" (identifier attachment) s = Some stored →
  is_Some (stored !! "depublication") →
  fs_files (snd (save_attachment attachment s)) = fs_files s ∧
  puts (writes (snd (save_attachment attachment s))) = puts (writes s).
Proof.
  intros Hst Hdep.
  unfold Mongo.save_attachment, getitem, Mongo.fs_put, insert, update,
    bind, gets, ret, raise.
  rewrite Hst. rewrite (bool_decide_eq_true_2 _ Hdep). cbv beta iota.
  cases; cbv beta iota zeta;
    cbn [snd fst fs_files writes log with_collection andb negb] in *;
    rewrite ?andb_false_r in *; try discriminate;
    rewrite ?puts_app; cbn [puts List.filter app]; rewrite ?app_nil_r; done.
Qed.

(** X16: a stored ['file'] that is not a [DBRef] fails the assertion of
    line 126: [save_attachment] raises [AssertionError] and has written
    nothing. *)
Theorem file_not_dbref_asserts attachment s stored v :
  get_object "attachments" "identifier" (identifier attachment) s = Some stored →
  stored !! "file" = Some v →
  (∀ c i, v ≠ VRef c i) →
  save_attachment attachment s = (Err AssertionError, s).
Proof.
  intros Hst Hfile Hv.
  unfold Mongo.save_attachment, bind, gets, raise. rewrite Hst, Hfile.
  destruct v; try done. by destruct (Hv collection0 v).
Qed.

(** X17: when [dict()] has no ['content'], [save_attachment] of a new
    attachment raises [KeyError] at the [del] of line 145, after the blob
    has been put: the blob stays in the store, with no attachment document
    that refers to it. *)
Theorem missing_content_orphans_blob attachment s :
  get_object "attachments" "identifier" (identifier attachment) s = None →
  dict attachment !! "content" = None →
  save_attachment attachment s =
    (Err (KeyError "content"),
     mkDb (attachments s) (submissions s)
          (fs_files s ++
           [mkFile (next_id s) (Z.of_nat (String.length (content attachment)))
                   (md5_hexdigest (content attachment)) (filename attachment) AGS])
          (N.succ (next_id s))
          (writes s ++ [FsPut (next_id s) (content attachment) (filename attachment) AGS])).
Proof.
  intros Hst Hc.
  unfold Mongo.save_attachment, getitem, Mongo.fs_put, bind, gets, ret, raise.
  rewrite Hst. cbv beta iota zeta.
  rewrite lookup_insert_ne by done. by rewrite Hc.
Qed.

(** *** A changed blob *)

Lemma files_find_one_Some i l f :
  files_find_one i l = Some f → i = VOid (file_id f) ∧ In f l.
Proof.
  induction l as [|a l IH]; cbn [files_find_one]; [done|].
  destruct (value_eqb (VOid (file_id a)) i) eqn:E.
  - intros [= ->]. apply value_eqb_eq in E. split; [done | by left].
  - intros H. destruct (IH H). split; [done | by right].
Qed.

Lemma get_object_ags name key v s d :
  get_object name key v s = Some d → d !! "ags" = Some (VStr AGS).
Proof.
  unfold Mongo.get_object. intros H. apply find_one_In in H as [_ Hq].
  apply andb_true_iff in Hq as [Hags _].
  by apply field_is_Some in Hags as [Hags|[_ [=]]].
Qed.

(** X18: when only the content has changed (the stored blob differs, the
    stored document is not depublished and agrees with [dict()] on every
    other field), [save_attachment] puts one new blob and sends one update
    that sets the ['file'] reference to the new blob and ['last_modified'],
    and no other field. *)
Theorem changed_content_updates_file_only attachment s stored c i f cv lm oid :
  get_object "attachments" "identifier" (identifier attachment) s = Some stored →
  stored !! "file" = Some (VRef c i) →
  files_find_one i (fs_files s) = Some f →
  (file_id f < next_id s)%N →
  file_differs f (content attachment) = true →
  stored !! "depublication" = None →
  stored !! "_id" = Some oid →
  dict attachment !! "content" = Some cv →
  dict attachment !! "last_modified" = Some lm →
  Mongo.changed_fields stored
    (<["ags" := VStr AGS]> (delete "content" (delete "file" (dict attachment)))) = ∅ →
  ∃ s',
    save_attachment attachment s = (Ok oid, s') ∧
    fs_files s' =
      fs_files s ++
      [mkFile (next_id s) (Z.of_nat (String.length (content attachment)))
              (md5_hexdigest (content attachment)) (filename attachment) AGS] ∧
    writes s' =
      writes s ++
      [FsPut (next_id s) (content attachment) (filename attachment) AGS;
       Update "attachments" oid
         (<["last_modified" := lm]>
            {["file" := VRef "fs.files" (VOid (next_id s))]})].
Proof.
  intros Hst Hfile Hf Hlt Hdiff Hdep Hid Hc Hlm Hsame.
  set (fresh := <["ags" := VStr AGS]>
                  (delete "content"
                     (<["file" := VRef "fs.files" (VOid (next_id s))]> (dict attachment)))
                : gmap string value).
  assert (Hset : Mongo.changed_fields stored fresh
                 = {["file" := VRef "fs.files" (VOid (next_id s))]}).
  { apply map_eq. intros k. rewrite changed_fields_lookup.
    destruct (decide (k = "file")) as [->|Hkf].
    { subst fresh. rewrite lookup_insert_ne by done. rewrite lookup_delete_ne by done.
      rewrite lookup_insert_eq, lookup_singleton_eq, Hfile. simpl.
      destruct (files_find_one_Some _ _ _ Hf) as [-> _].
      replace (value_eqb (VOid (file_id f)) (VOid (next_id s))) with false;
        [by rewrite andb_false_r|].
      symmetry. simpl. apply N.eqb_neq. lia. }
    rewrite lookup_singleton_ne by done.
    pose proof (f_equal (.!! k) Hsame) as Hk. simpl in Hk.
    rewrite changed_fields_lookup, lookup_empty in Hk.
    replace (fresh !! k)
      with ((<["ags" := VStr AGS]> (delete "content" (delete "file" (dict attachment)))
             : gmap string value) !! k); [exact Hk|].
    subst fresh.
    destruct (decide (k = "ags")) as [->|Hka]; [by rewrite !lookup_insert_eq|].
    rewrite !(lookup_insert_ne _ "ags") by done.
    destruct (decide (k = "content")) as [->|Hkc]; [by rewrite !lookup_delete_eq|].
    rewrite !(lookup_delete_ne _ "content") by done.
    rewrite lookup_insert_ne by done. by rewrite lookup_delete_ne. }
  unfold Mongo.save_attachment, getitem, Mongo.fs_put, update, bind, gets, ret, raise.
  rewrite Hst. cbv beta iota zeta. rewrite Hfile. cbv beta iota. rewrite Hf.
  cbv beta iota. rewrite Hdiff, Hdep.
  rewrite bool_decide_eq_false_2 by (intros [? [=]]).
  cbn [andb orb negb]. cbv beta iota.
  rewrite lookup_insert_ne by done. rewrite Hc. cbv beta iota. rewrite Hid.
  cbv beta iota. fold fresh.
  assert (Hff : fresh !! "file" = Some (VRef "fs.files" (VOid (next_id s)))).
  { subst fresh. rewrite lookup_insert_ne by done. rewrite lookup_delete_ne by done.
    by rewrite lookup_insert_eq. }
  assert (Hfl : fresh !! "last_modified" = Some lm).
  { subst fresh. rewrite lookup_insert_ne by done. rewrite lookup_delete_ne by done.
    by rewrite lookup_insert_ne. }
  rewrite Hff, Hfl, Hset. cbv beta iota.
  eexists. split; [reflexivity|].
  cbn [fs_files writes log with_collection]. split; [done|].
  by rewrite <- app_assoc.
Qed.

(** *** Saving, then looking up *)

Lemma doc_ids_unique_before l1 d l2 i :
  Mongo.ids_unique (l1 ++ d :: l2) = true → d !! "_id" = Some i →
  find_one (field_is "_id" i) l1 = None.
Proof.
  induction l1 as [|a l1 IH]; simpl; [done|].
  intros Hu Hd. apply andb_true_iff in Hu as [Ha Hu].
  destruct (a !! "_id") as [w|] eqn:Hw; [|done].
  apply negb_true_iff in Ha. rewrite existsb_app in Ha.
  apply orb_false_elim in Ha as [_ Ha]. simpl in Ha.
  apply orb_false_elim in Ha as [Ha _].
  replace (field_is "_id" i a) with false; [by apply IH|].
  symmetry. unfold field_is in *. rewrite Hw. rewrite Hd in Ha.
  destruct (value_eqb w i) eqn:E; [|done].
  apply value_eqb_eq in E. subst. by rewrite value_eqb_refl in Ha.
Qed.

(** A partial update of the document a query finds leaves it the document
    the query finds, as long as the updated document still matches. *)
Lemma update_keeps_lookup query l stored oid set :
  find_one query l = Some stored →
  stored !! "_id" = Some oid →
  Mongo.ids_unique l = true →
  query (set ∪ stored) = true →
  find_one query (update_first (field_is "_id" oid) (λ d, set ∪ d) l)
    = Some (set ∪ stored).
Proof.
  intros Hf Hid Hu Hq.
  destruct (find_one_split _ _ _ Hf) as (l1 & l2 & -> & _ & Hn).
  rewrite update_first_middle.
  - by apply find_one_middle.
  - by apply (doc_ids_unique_before l1 stored l2).
  - apply field_is_Some. by left.
Qed.

(** The natural key survives the partial update: the realm is never in
    [set_attributes], and the key field is there only to fill it in. *)
Lemma natural_key_kept key v stored fresh set :
  field_is "ags" (VStr AGS) stored = true →
  field_is key v stored = true →
  fresh !! "ags" = Some (VStr AGS) →
  fresh !! key = Some v →
  key ≠ "last_modified" → key ≠ "ags" →
  (∀ k, k = "ags" ∨ k = key → set !! k = Mongo.changed_fields stored fresh !! k) →
  field_is "ags" (VStr AGS) (set ∪ stored) && field_is key v (set ∪ stored) = true.
Proof.
  intros Hags Hkey Hfa Hfk Hne1 Hne2 Hset.
  apply field_is_Some in Hags as [Hags|[_ [=]]].
  apply andb_true_iff. split; apply field_is_Some; left.
  - rewrite lookup_union_r; [done|].
    rewrite Hset by by left. rewrite changed_fields_lookup, Hfa, Hags. simpl.
    by rewrite String.eqb_refl.
  - apply String.eqb_neq in Hne1.
    apply field_is_Some in Hkey as [Hkey|[Hkey ->]].
    + rewrite lookup_union_r; [done|].
      rewrite Hset by by right.
      by rewrite changed_fields_lookup, Hfk, Hne1, Hkey, value_eqb_refl.
    + apply lookup_union_Some_raw. left.
      rewrite Hset by by right.
      by rewrite changed_fields_lookup, Hfk, Hne1, Hkey.
Qed.

Lemma wf_docs_id nx l d :
  forallb (id_below nx) l = true → In d l →
  ∃ i, d !! "_id" = Some (VOid i) ∧ (i < nx)%N.
Proof.
  intros Hb Hd. apply (proj1 (forallb_forall _ _) Hb) in Hd. unfold id_below in Hd.
  destruct (d !! "_id") as [[]|]; try done.
  eexists. split; [done|]. by apply N.ltb_lt.
Qed.

(** What [save_attachment] does to the attachments when the attachment is
    stored and the call returns: nothing, or one partial update of the
    document with the returned ['_id']. *)
Lemma save_attachment_stored_inv attachment s stored oid s' :
  get_object "attachments" "identifier" (identifier attachment) s = Some stored →
  save_attachment attachment s = (Ok oid, s') →
  stored !! "_id" = Some oid ∧
  (attachments s' = attachments s ∨
   ∃ set,
     attachments s' =
       update_first (field_is "_id" oid) (λ d, set ∪ d) (attachments s) ∧
     ∀ k, k ≠ "last_modified" → k ≠ "file" →
          set !! k =
          Mongo.changed_fields stored
            (<["ags" := VStr AGS]> (delete "content" (dict attachment))) !! k).
Proof.
  intros Hst.
  unfold Mongo.save_attachment, getitem, Mongo.fs_put, update, bind, gets, ret, raise.
  rewrite Hst.
  cases; cbv beta iota zeta; intros [= <- <-]; (split; [done|]);
    cbn [attachments with_collection log String.eqb Ascii.eqb Bool.eqb collection];
    first [ by left
          | right; eexists; split; [reflexivity|];
            intros k Hk1 Hk2;
            rewrite ?lookup_insert_ne by done;
            rewrite !changed_fields_lookup;
            destruct (decide (k = "ags")) as [->|?];
              [by rewrite !lookup_insert_eq|];
            rewrite !(lookup_insert_ne _ "ags") by done;
            destruct (decide (k = "content")) as [->|?];
              [by rewrite !lookup_delete_eq|];
            rewrite !lookup_delete_ne by done;
            rewrite ?lookup_insert_ne by done; done ].
Qed.

(** The equation behind a first sync. *)
Lemma save_attachment_insert attachment s cv :
  get_object "attachments" "identifier" (identifier attachment) s = None →
  dict attachment !! "content" = Some cv →
  dict attachment !! "_id" = None →
  save_attachment attachment s =
    (Ok (VOid (N.succ (next_id s))),
     mkDb (attachments s ++
           [<["_id" := VOid (N.succ (next_id s))]>
              (<["ags" := VStr AGS]>
                 (delete "content"
                    (<["file" := VRef "fs.files" (VOid (next_id s))]> (dict attachment))))])
          (submissions s)
          (fs_files s ++
           [mkFile (next_id s) (Z.of_nat (String.length (content attachment)))
                   (md5_hexdigest (content attachment)) (filename attachment) AGS])
          (N.succ (N.succ (next_id s)))
          (writes s ++
           [FsPut (next_id s) (content attachment) (filename attachment) AGS;
            Insert "attachments"
              (<["ags" := VStr AGS]>
                 (delete "content"
                    (<["file" := VRef "fs.files" (VOid (next_id s))]> (dict attachment))))])).
Proof.
  intros Hst Hc Hid.
  unfold Mongo.save_attachment, getitem, Mongo.fs_put, insert, bind, gets, ret, raise.
  rewrite Hst. cbv beta iota zeta.
  rewrite lookup_insert_ne by done. rewrite Hc. cbv beta iota.
  cbn [log attachments submissions fs_files next_id writes].
  rewrite lookup_insert_ne by done. rewrite lookup_delete_ne by done.
  rewrite lookup_insert_ne by done. rewrite Hid.
  cbn [with_collection collection log attachments submissions fs_files next_id
       writes String.eqb Ascii.eqb Bool.eqb].
  by rewrite <- app_assoc.
Qed.

Lemma save_attachment_insert_inv attachment s oid s' :
  get_object "attachments" "identifier" (identifier attachment) s = None →
  dict attachment !! "_id" = None →
  save_attachment attachment s = (Ok oid, s') →
  oid = VOid (N.succ (next_id s)) ∧
  attachments s' =
    attachments s ++
    [<["_id" := oid]>
       (<["ags" := VStr AGS]>
          (delete "content"
             (<["file" := VRef "fs.files" (VOid (next_id s))]> (dict attachment))))] ∧
  next_id s' = N.succ (N.succ (next_id s)).
Proof.
  intros Hst Hid.
  destruct (dict attachment !! "content") as [cv|] eqn:Hc.
  - rewrite (save_attachment_insert attachment s cv Hst Hc Hid).
    by intros [= <- <-].
  - unfold Mongo.save_attachment, getitem, Mongo.fs_put, bind, gets, ret, raise.
    rewrite Hst. cbv beta iota zeta.
    rewrite lookup_insert_ne by done. by rewrite Hc.
Qed.

(** X19: what [save_attachment] returns is the ['_id'] under which the
    attachment is found afterwards.  For an attachment whose [dict()]
    carries its identifier and no ['_id'], a call that returns leaves
    [get_object_id] by that identifier equal to the returned value, and
    [attachment_exists] true. *)
Theorem save_attachment_then_lookup attachment s oid s' :
  wf_attachments s = true →
  dict attachment !! "identifier" = Some (identifier attachment) →
  dict attachment !! "_id" = None →
  save_attachment attachment s = (Ok oid, s') →
  get_object_id "attachments" "identifier" (identifier attachment) s' = oid ∧
  attachment_exists (identifier attachment) s' = true.
Proof.
  intros Hwf Hident Hid Hsave.
  apply andb_true_iff in Hwf as [Hb Hu].
  assert (Hgoal : ∃ d i,
    get_object "attachments" "identifier" (identifier attachment) s' = Some d ∧
    d !! "_id" = Some oid ∧ oid = VOid i).
  { destruct (get_object "attachments" "identifier" (identifier attachment) s)
      as [stored|] eqn:Hst.
    - destruct (save_attachment_stored_inv _ _ _ _ _ Hst Hsave) as [Hoid Hcases].
      unfold Mongo.get_object, collection in Hst. simpl in Hst.
      destruct (find_one_In _ _ _ Hst) as [Hin Hq].
      destruct (wf_docs_id _ _ _ Hb Hin) as (i & Hi & _).
      assert (oid = VOid i) by congruence.
      destruct Hcases as [Hsame|(set & Hupd & Hset)].
      + exists stored, i. unfold Mongo.get_object, collection. simpl.
        by rewrite Hsame.
      + exists (set ∪ stored), i. unfold Mongo.get_object, collection. simpl.
        rewrite Hupd. split_and!; [|  | done].
        * apply update_keeps_lookup; [done.. |].
          apply andb_true_iff in Hq as [Hqa Hqk].
          apply (natural_key_kept "identifier" _ stored
                   (<["ags" := VStr AGS]> (delete "content" (dict attachment))));
            [done | done | by rewrite lookup_insert_eq | | done | done |].
          -- rewrite lookup_insert_ne by done. by rewrite lookup_delete_ne.
          -- intros k [->| ->]; by apply Hset.
        * rewrite lookup_union_r; [done|].
          rewrite Hset by done. rewrite changed_fields_lookup.
          rewrite lookup_insert_ne by done. rewrite lookup_delete_ne by done.
          by rewrite Hid.
    - destruct (save_attachment_insert_inv _ _ _ _ Hst Hid Hsave) as (Hoid & Hatt & _).
      eexists _, _. split_and!; [| | exact Hoid].
      + unfold Mongo.get_object, collection in *. simpl in *. rewrite Hatt.
        apply find_one_snoc; [by apply find_one_None_iff|].
        apply andb_true_iff. split; apply field_is_Some; left.
        * rewrite lookup_insert_ne by done. by rewrite lookup_insert_eq.
        * rewrite lookup_insert_ne by done. rewrite lookup_insert_ne by done.
          rewrite lookup_delete_ne by done. by rewrite lookup_insert_ne.
      + by rewrite lookup_insert_eq. }
  destruct Hgoal as (d & i & Hget & Hd & ->).
  unfold Mongo.attachment_exists, Mongo.get_object_id. by rewrite Hget, Hd.
Qed.

(** *** [save_submission], phase by phase *)

Lemma dereference_superordinate_inv fresh s fresh2 s2 :
  dereference_superordinate fresh s = (Ok fresh2, s2) →
  s2 = s ∧ ∀ k, k ≠ "superordinate" → fresh2 !! k = fresh !! k.
Proof.
  unfold Mongo.dereference_superordinate, subscript, getitem, bind, gets, ret, raise.
  destruct (fresh !! "superordinate") as [sup|]; [|by intros [= <- <-]].
  destruct sup; try done.
  destruct (dict_get "numeric_id" items); [|done].
  destruct (get_object "submissions" "numeric_id" v s) as [d|]; [|by intros [= <- <-]].
  destruct (d !! "_id"); [|done].
  intros [= <- <-]. split; [done|]. intros k Hk. by rewrite lookup_insert_ne.
Qed.

Lemma save_submission_inv submission s oid s' :
  save_submission submission s = (Ok oid, s') →
  ∃ fresh1 s1 fresh2,
    dereference_attachments (submission_attachments submission)
      (<["ags" := VStr AGS]> (submission_dict submission)) s = (Ok fresh1, s1) ∧
    dereference_superordinate fresh1 s1 = (Ok fresh2, s1) ∧
    Mongo.store_submission
      (get_object "submissions" "numeric_id" (numeric_id submission) s) fresh2 s1
      = (Ok oid, s').
Proof.
  unfold Mongo.save_submission, bind at 1, gets at 1. unfold bind at 1.
  destruct (dereference_attachments _ _ s) as [[fresh1|e] s1]; [|done].
  unfold bind at 1.
  destruct (dereference_superordinate fresh1 s1) as [[fresh2|e] s2] eqn:E2; [|done].
  destruct (dereference_superordinate_inv _ _ _ _ E2) as [-> _].
  intros H. by exists fresh1, s1, fresh2.
Qed.

(** What [store_submission] leaves when it returns: the document with the
    returned ['_id'] is either the new one at the end of the collection, or
    the stored one, updated in place or not at all. *)
Lemma store_submission_inv s query fresh oid s' :
  wf_submissions s = true → fresh !! "_id" = None →
  Mongo.store_submission (find_one query (submissions s)) fresh s = (Ok oid, s') →
  ∃ d i,
    oid = VOid i ∧ d !! "_id" = Some oid ∧
    find_one (field_is "_id" oid) (submissions s') = Some d ∧
    (∀ k v, fresh !! k = Some v → k ≠ "last_modified" → d !! k = Some v) ∧
    ((find_one query (submissions s) = None ∧
      submissions s' = submissions s ++ [d] ∧ d = <["_id" := oid]> fresh) ∨
     (∃ stored set,
        find_one query (submissions s) = Some stored ∧ d = set ∪ stored ∧
        submissions s' =
          update_first (field_is "_id" oid) (λ x, set ∪ x) (submissions s) ∧
        ∀ k, k ≠ "last_modified" →
             set !! k = Mongo.changed_fields stored fresh !! k)).
Proof.
  intros Hwf Hid.
  destruct (find_one query (submissions s)) as [stored|] eqn:Hst.
  - destruct (find_one_by_id s query stored Hwf Hst) as (i & Hi & Hfi).
    unfold Mongo.store_submission, bind, getitem. rewrite Hi.
    destruct (bool_decide (Mongo.changed_fields stored fresh = ∅)) eqn:E; cbn [negb].
    + apply bool_decide_eq_true in E. unfold ret. intros [= <- <-].
      exists stored, i. split_and!; [done.. | |].
      * intros k v Hk Hne.
        by apply (changed_fields_applied stored fresh k v VNone Hk Hne).
      * right. exists stored, ∅. split_and!; [done | by rewrite (left_id_L ∅ (∪)) | |].
        -- apply find_one_split in Hfi as (l1 & l2 & Hl & Hq & Hn).
           rewrite Hl, update_first_middle by done. by rewrite (left_id_L ∅ (∪)).
        -- intros k _. by rewrite E, !lookup_empty.
    + destruct (fresh !! "last_modified") as [lm|] eqn:Hlm; [|done].
      unfold ret at 1 2. unfold update, ret. cbv beta iota zeta.
      intros [= <- <-].
      cbn [submissions with_collection log collection String.eqb Ascii.eqb Bool.eqb].
      exists (<["last_modified" := lm]> (Mongo.changed_fields stored fresh) ∪ stored), i.
      split_and!; [done | | | |].
      * rewrite lookup_union_r; [exact Hi|].
        rewrite lookup_insert_ne by done. by rewrite changed_fields_lookup, Hid.
      * apply find_one_update_first; [done|].
        apply field_is_Some. left. rewrite lookup_union_r; [done|].
        rewrite lookup_insert_ne by done. by rewrite changed_fields_lookup, Hid.
      * intros k v Hk Hne.
        by apply (changed_fields_applied stored fresh k v lm Hk Hne).
      * right. eexists stored, _. split_and!; [done.. |].
        intros k Hk. by rewrite lookup_insert_ne.
  - unfold Mongo.store_submission, insert. rewrite Hid. intros [= <- <-].
    cbn [submissions with_collection log collection String.eqb Ascii.eqb Bool.eqb
         next_id].
    exists (<["_id" := VOid (next_id s)]> fresh), (next_id s).
    split_and!; [done | by rewrite lookup_insert_eq | | |].
    + apply find_one_snoc.
      * intros a Ha. destruct (wf_submissions_id s a Hwf Ha) as (j & Hj & Hlt).
        destruct (field_is "_id" (VOid (next_id s)) a) eqn:E; [|done].
        apply (field_is_id a (VOid j)) in E; [|done].
        injection E as E. lia.
      * apply field_is_Some. left. by rewrite lookup_insert_eq.
    + intros k v Hk _. rewrite lookup_insert_ne; [done|]. intros <-. congruence.
    + by left.
Qed.

(** X20: what [save_submission] returns is the ['_id'] under which the
    submission is found afterwards.  For a submission whose [dict()]
    carries its [numeric_id] and no ['_id'], a call that returns leaves
    [get_object_id] by that [numeric_id] equal to the returned value, and
    [submission_exists] true. *)
Theorem save_submission_then_lookup submission s oid s' :
  wf_submissions s = true →
  submission_dict submission !! "numeric_id" = Some (numeric_id submission) →
  submission_dict submission !! "_id" = None →
  save_submission submission s = (Ok oid, s') →
  get_object_id "submissions" "numeric_id" (numeric_id submission) s' = oid ∧
  submission_exists (numeric_id submission) s' = true.
Proof.
  intros Hwf Hnum Hid Hsave.
  destruct (save_submission_inv _ _ _ _ Hsave) as (fresh1 & s1 & fresh2 & Hatt & Hsup & Hstore).
  destruct (dereference_attachments_frame _ _ _ _ _ _ _ Hatt) as (Hs & Hnx & Hk1).
  destruct (dereference_superordinate_inv _ _ _ _ Hsup) as [_ Hk2].
  pose proof (wf_submissions_mono s s1 Hwf Hs Hnx) as Hwf1.
  assert (Hf_id : fresh2 !! "_id" = None).
  { rewrite Hk2, Hk1 by done. by rewrite lookup_insert_ne. }
  assert (Hf_ags : fresh2 !! "ags" = Some (VStr AGS)).
  { rewrite Hk2, Hk1 by done. by rewrite lookup_insert_eq. }
  assert (Hf_num : fresh2 !! "numeric_id" = Some (numeric_id submission)).
  { rewrite Hk2, Hk1 by done. by rewrite lookup_insert_ne. }
  unfold Mongo.get_object, collection in Hstore. simpl in Hstore. rewrite <- Hs in Hstore.
  destruct (store_submission_inv s1 _ fresh2 oid s' Hwf1 Hf_id Hstore)
    as (d & i & -> & Hd & _ & Hagree & Hcases).
  assert (Hget : get_object "submissions" "numeric_id" (numeric_id submission) s'
                 = Some d).
  { unfold Mongo.get_object, collection. simpl.
    destruct Hcases as [(Hnone & Hsub & _)|(stored & set & Hsome & -> & Hsub & Hset)].
    - rewrite Hsub. apply find_one_snoc; [by apply find_one_None_iff|].
      apply andb_true_iff. split; apply field_is_Some; left; by apply Hagree.
    - rewrite Hsub. destruct (find_one_In _ _ _ Hsome) as [Hin Hq].
      destruct (wf_submissions_id s1 stored Hwf1 Hin) as (j & Hj & _).
      apply andb_true_iff in Hwf1 as [_ Hu].
      apply update_keeps_lookup; [done | | done |].
      + rewrite lookup_union_r in Hd; [done|].
        rewrite Hset by done. by rewrite changed_fields_lookup, Hf_id.
      + apply andb_true_iff in Hq as [Hqa Hqk].
        apply (natural_key_kept "numeric_id" _ stored fresh2); [done.. |].
        intros k [->| ->]; by apply Hset. }
  unfold Mongo.submission_exists, Mongo.get_object_id. by rewrite Hget, Hd.
Qed.

Lemma save_attachments_refs l : ∀ s refs s',
  save_attachments l s = (Ok refs, s') →
  length refs = length l ∧ Forall (λ r, ∃ i, r = VRef "attachments" i) refs.
Proof.
  induction l as [|a l IH]; intros s refs s'.
  { intros [= <- <-]. by split. }
  cbn [Mongo.save_attachments]. unfold bind.
  destruct (save_attachment a s) as [[oid|e] s1]; [|done].
  destruct (save_attachments l s1) as [[refs0|e] s2] eqn:E; [|done].
  intros [= <- <-]. destruct (IH _ _ _ E) as [Hlen Hall].
  split; [simpl; by rewrite Hlen|]. constructor; [by eexists | done].
Qed.


(** *** Syncing the same submission again *)

Lemma field_is_functional k v v' d :
  field_is k v d = true → field_is k v' d = true → v = v'.
Proof.
  rewrite !field_is_Some. intros [H|[H ->]] [H'|[H' ->]]; congruence.
Qed.

Lemma find_one_snoc_miss query l d :
  query d = false → find_one query (l ++ [d]) = find_one query l.
Proof.
  intros Hq. induction l as [|a l IH]; simpl; [by rewrite Hq|].
  by destruct (query a).
Qed.

Lemma find_one_replace_miss query l1 a b l2 :
  query a = false → query b = false →
  find_one query (l1 ++ a :: l2) = find_one query (l1 ++ b :: l2).
Proof.
  intros Ha Hb. induction l1 as [|c l1 IH]; simpl; [by rewrite Ha, Hb|].
  by destruct (query c).
Qed.

(** Looking a superordinate up gives the same answer in two stores that
    agree on it, and then so does [dereference_superordinate]. *)
Lemma dereference_superordinate_stable fresh s s1 fresh2 :
  (∀ items n, fresh !! "superordinate" = Some (VDict items) →
              dict_get "numeric_id" items = Some n →
              get_object "submissions" "numeric_id" n s1
              = get_object "submissions" "numeric_id" n s) →
  dereference_superordinate fresh s = (Ok fresh2, s) →
  dereference_superordinate fresh s1 = (Ok fresh2, s1).
Proof.
  intros Hsame.
  unfold Mongo.dereference_superordinate, subscript, getitem, bind, gets, ret, raise.
  destruct (fresh !! "superordinate") as [sup|]; [|by intros [= <-]].
  destruct sup; try done.
  destruct (dict_get "numeric_id" items) as [n|] eqn:Hn; [|done].
  rewrite (Hsame items n eq_refl Hn).
  destruct (get_object "submissions" "numeric_id" n s) as [d|]; [|by intros [= <-]].
  destruct (d !! "_id"); [|done]. by intros [= <-].
Qed.

(** X22: syncing an unchanged submission again writes nothing.  For a
    submission without attachments whose [dict()] carries its [numeric_id]
    and no ['_id'], and whose superordinate, if it names one, is another
    submission, a [save_submission] that has returned can be repeated: the
    second call returns the same ['_id'] and leaves the database, log of
    writes included, exactly as the first call left it. *)
Theorem resync_submission_writes_nothing submission s oid s1 :
  wf_submissions s = true →
  submission_dict submission !! "numeric_id" = Some (numeric_id submission) →
  submission_dict submission !! "_id" = None →
  submission_attachments submission = None →
  (∀ items n,
     submission_dict submission !! "superordinate" = Some (VDict items) →
     dict_get "numeric_id" items = Some n → n ≠ numeric_id submission) →
  save_submission submission s = (Ok oid, s1) →
  save_submission submission s1 = (Ok oid, s1).
Proof.
  intros Hwf Hnum Hid Hno Hother Hsave.
  destruct (save_submission_inv _ _ _ _ Hsave) as (fresh1 & s' & fresh2 & Hatt & Hsup & Hstore).
  rewrite Hno in Hatt. cbn [Mongo.dereference_attachments] in Hatt.
  injection Hatt as <- <-.
  destruct (dereference_superordinate_inv _ _ _ _ Hsup) as [_ Hk2].
  assert (Hf_id : fresh2 !! "_id" = None).
  { rewrite Hk2 by done. by rewrite lookup_insert_ne. }
  assert (Hf_ags : fresh2 !! "ags" = Some (VStr AGS)).
  { rewrite Hk2 by done. by rewrite lookup_insert_eq. }
  assert (Hf_num : fresh2 !! "numeric_id" = Some (numeric_id submission)).
  { rewrite Hk2 by done. by rewrite lookup_insert_ne. }
  pose proof Hstore as Hstore'.
  unfold Mongo.get_object, collection in Hstore'. simpl in Hstore'.
  destruct (store_submission_inv s _ fresh2 oid s1 Hwf Hf_id Hstore')
    as (d & i & -> & Hd & _ & Hagree & Hcases).
  (* the document is found again by its natural key, and it still matches *)
  assert (Hmatch :
    field_is "ags" (VStr AGS) d && field_is "numeric_id" (numeric_id submission) d
    = true).
  { apply andb_true_iff. split; apply field_is_Some; left; by apply Hagree. }
  assert (Hshape : ∀ query : gmap string value → bool,
    (∀ x, field_is "numeric_id" (numeric_id submission) x = true → query x = false) →
    find_one query (submissions s1) = find_one query (submissions s)).
  { intros query Hmiss.
    destruct Hcases as [(Hnone & Hsub & _)|(stored & set & Hsome & -> & Hsub & Hset)].
    - rewrite Hsub. apply find_one_snoc_miss, Hmiss.
      by apply andb_true_iff in Hmatch as [_ ?].
    - destruct (find_one_split _ _ _ Hsome) as (l1 & l2 & Hl & Hq & Hn).
      rewrite Hsub, Hl. rewrite update_first_middle.
      + apply find_one_replace_miss; apply Hmiss.
        * by apply andb_true_iff in Hmatch as [_ ?].
        * by apply andb_true_iff in Hq as [_ ?].
      + apply andb_true_iff in Hwf as [_ Hu]. rewrite Hl in Hu.
        apply (doc_ids_unique_before l1 stored l2); [done|].
        rewrite lookup_union_r in Hd; [done|].
        rewrite Hset by done. by rewrite changed_fields_lookup, Hf_id.
      + apply field_is_Some. left.
        rewrite lookup_union_r in Hd; [done|].
        rewrite Hset by done. by rewrite changed_fields_lookup, Hf_id. }
  assert (Hget : get_object "submissions" "numeric_id" (numeric_id submission) s1
                 = Some d).
  { unfold Mongo.get_object, collection. simpl.
    destruct Hcases as [(Hnone & Hsub & _)|(stored & set & Hsome & -> & Hsub & Hset)].
    - rewrite Hsub. apply find_one_snoc; [by apply find_one_None_iff | done].
    - rewrite Hsub. destruct (find_one_In _ _ _ Hsome) as [Hin Hq].
      apply andb_true_iff in Hwf as [_ Hu].
      apply update_keeps_lookup; [done | | done | done].
      rewrite lookup_union_r in Hd; [done|].
      rewrite Hset by done. by rewrite changed_fields_lookup, Hf_id. }
  assert (Hsup1 : dereference_superordinate
                    (<["ags" := VStr AGS]> (submission_dict submission)) s1
                  = (Ok fresh2, s1)).
  { apply (dereference_superordinate_stable _ s); [|done].
    intros items n Hs Hn. unfold Mongo.get_object, collection. simpl.
    apply Hshape. intros x Hx.
    apply andb_false_iff. right.
    destruct (field_is "numeric_id" n x) eqn:E; [|done].
    rewrite lookup_insert_ne in Hs by done.
    destruct (Hother items n Hs Hn). by apply (field_is_functional "numeric_id" _ _ x). }
  assert (Hnochange : Mongo.changed_fields d fresh2 = ∅).
  { apply map_eq. intros k. rewrite changed_fields_lookup, lookup_empty.
    destruct (fresh2 !! k) as [v|] eqn:Hk; [|done].
    destruct (String.eqb k "last_modified") eqn:E; [done|].
    apply String.eqb_neq in E. by rewrite (Hagree k v Hk E), value_eqb_refl. }
  unfold Mongo.save_submission, bind at 1, gets at 1. rewrite Hget.
  unfold bind at 1. rewrite Hno. cbn [Mongo.dereference_attachments]. unfold ret at 1.
  unfold bind at 1. rewrite Hsup1.
  unfold Mongo.store_submission, bind, getitem. rewrite Hnochange.
  rewrite bool_decide_eq_true_2 by done. cbn [negb]. unfold ret at 1. by rewrite Hd.
Qed.

End SynchroniserMore.

(** ** Sessions *)

Section SessionsMore.
Import Mongo.

Variable AGS : string.
Variable md5_hexdigest : string → string.
Variable verbose : bool.

Abbreviation save_submission := (Mongo.save_submission AGS md5_hexdigest).
Abbreviation save_submissions := (Mongo.save_submissions AGS md5_hexdigest).
Abbreviation save_attachments := (Mongo.save_attachments AGS md5_hexdigest).
Abbreviation dereference_attachments := (Mongo.dereference_attachments AGS md5_hexdigest).
Abbreviation dereference_agendaitem := (Mongo.dereference_agendaitem AGS md5_hexdigest).
Abbreviation dereference_agendaitems := (Mongo.dereference_agendaitems AGS md5_hexdigest).
Abbreviation dereference_session := (Mongo.dereference_session AGS md5_hexdigest).
Abbreviation get_session := (Mongo.get_session AGS).
Abbreviation session_exists := (Mongo.session_exists AGS).
Abbreviation save_session := (Mongo.save_session AGS md5_hexdigest verbose).

Ltac branches :=
  repeat (cbv beta iota;
          match goal with
          | |- context [match ?x with Some _ => _ | None => _ end] =>
              destruct x eqn:?
          | |- context [if ?b then _ else _] => destruct b eqn:?
          end).

(** The ObjectId counter never goes back. *)
Lemma store_submission_next_id stored fresh s r s' :
  Mongo.store_submission stored fresh s = (r, s') → (next_id s ≤ next_id s')%N.
Proof.
  unfold Mongo.store_submission, getitem, insert, update, bind, ret, raise.
  branches; cbv beta iota zeta; intros [= <- <-];
    cbn [next_id log with_collection]; lia.
Qed.

Lemma save_submission_next_id submission s oid s' :
  save_submission submission s = (Ok oid, s') → (next_id s ≤ next_id s')%N.
Proof.
  intros Hsave.
  destruct (save_submission_inv _ _ _ _ _ _ Hsave)
    as (fresh1 & s1 & fresh2 & Hatt & _ & Hstore).
  destruct (dereference_attachments_frame _ _ _ _ _ _ _ Hatt) as (_ & Hnx & _).
  apply store_submission_next_id in Hstore. lia.
Qed.

(** What the loop over the submissions of an agenda item returns. *)
Lemma save_submissions_refs l : ∀ s refs s',
  save_submissions l s = (Ok refs, s') →
  (next_id s ≤ next_id s')%N ∧ length refs = length l ∧
  Forall (λ r, ∃ i, r = VRef "submissions" i) refs.
Proof.
  induction l as [|a l IH]; intros s refs s'.
  { intros [= <- <-]. split_and!; [lia | done | done]. }
  cbn [Mongo.save_submissions]. unfold bind.
  destruct (save_submission a s) as [[oid|e] s1] eqn:E1; [|done].
  destruct (save_submissions l s1) as [[refs0|e] s2] eqn:E2; [|done].
  intros [= <- <-]. destruct (IH _ _ _ E2) as (Hn & Hlen & Hall).
  apply save_submission_next_id in E1.
  split_and!; [lia | simpl; by rewrite Hlen |]. constructor; [by eexists | done].
Qed.

Lemma dereference_agendaitems_inv l : ∀ s vs s',
  dereference_agendaitems l s = (Ok vs, s') →
  (next_id s ≤ next_id s')%N ∧
  Forall2 (λ item v,
    match agendaitem_submissions item with
    | None => v = VDict (agendaitem_dict item)
    | Some subs =>
        ∃ refs,
          v = VDict (dict_set "submissions" (VList refs) (agendaitem_dict item)) ∧
          length refs = length subs ∧
          Forall (λ r, ∃ i, r = VRef "submissions" i) refs
    end) l vs.
Proof.
  induction l as [|item l IH]; intros s vs s'.
  { intros [= <- <-]. split; [lia | constructor]. }
  cbn [Mongo.dereference_agendaitems]. unfold bind at 1.
  destruct (dereference_agendaitem item s) as [[v|e] s1] eqn:E1; [|done].
  unfold bind at 1.
  destruct (dereference_agendaitems l s1) as [[vs0|e] s2] eqn:E2; [|done].
  intros [= <- <-]. destruct (IH _ _ _ E2) as (Hn & Hall).
  unfold Mongo.dereference_agendaitem in E1.
  destruct (agendaitem_submissions item) as [subs|] eqn:Hsubs.
  - unfold bind in E1.
    destruct (save_submissions subs s) as [[refs|e] s0] eqn:E0; [|done].
    injection E1 as <- <-. destruct (save_submissions_refs _ _ _ _ E0) as (Hn0 & Hlen & Href).
    split; [lia|]. constructor; [|done]. rewrite Hsubs. by exists refs.
  - injection E1 as <- <-. split; [done|]. constructor; [|done]. by rewrite Hsubs.
Qed.

(** What [dereference_session] returns: the mapping it was given, with
    references under ['attachments'] and ['agendaitems']. *)
Lemma dereference_session_inv session fresh s fresh' s' :
  dereference_session session fresh s = (Ok fresh', s') →
  (next_id s ≤ next_id s')%N ∧
  (∀ k, k ≠ "attachments" → k ≠ "agendaitems" → fresh' !! k = fresh !! k) ∧
  (∀ l, session_attachments session = Some l →
        ∃ refs, fresh' !! "attachments" = Some (VList refs) ∧
                length refs = length l ∧
                Forall (λ r, ∃ i, r = VRef "attachments" i) refs) ∧
  (∀ items, session_agendaitems session = Some items →
        ∃ vs, fresh' !! "agendaitems" = Some (VList vs) ∧
              Forall2 (λ item v,
                match agendaitem_submissions item with
                | None => v = VDict (agendaitem_dict item)
                | Some subs =>
                    ∃ refs,
                      v = VDict (dict_set "submissions" (VList refs)
                                          (agendaitem_dict item)) ∧
                      length refs = length subs ∧
                      Forall (λ r, ∃ i, r = VRef "submissions" i) refs
                end) items vs).
Proof.
  unfold Mongo.dereference_session, bind at 1.
  destruct (dereference_attachments _ fresh s) as [[fresh1|e] s1] eqn:E1; [|done].
  destruct (dereference_attachments_frame _ _ _ _ _ _ _ E1) as (_ & Hn1 & Hk1).
  assert (Hatt : ∀ l, session_attachments session = Some l →
        ∃ refs, fresh1 !! "attachments" = Some (VList refs) ∧
                length refs = length l ∧
                Forall (λ r, ∃ i, r = VRef "attachments" i) refs).
  { intros l Hl. rewrite Hl in E1. cbn [Mongo.dereference_attachments] in E1.
    unfold bind in E1.
    destruct (save_attachments l s) as [[refs|e] s0] eqn:E0; [|done].
    injection E1 as <- <-. destruct (save_attachments_refs _ _ _ _ _ _ E0) as [Hlen Href].
    exists refs. by rewrite lookup_insert_eq. }
  destruct (session_agendaitems session) as [items|].
  - unfold bind.
    destruct (dereference_agendaitems items s1) as [[vs|e] s2] eqn:E2; [|done].
    intros [= <- <-]. destruct (dereference_agendaitems_inv _ _ _ _ E2) as (Hn2 & Hall).
    split_and!; [lia | | |].
    + intros k Hk1' Hk2'. rewrite lookup_insert_ne by done. by apply Hk1.
    + intros l Hl. destruct (Hatt l Hl) as (refs & ? & ? & ?).
      exists refs. by rewrite lookup_insert_ne.
    + intros ? [= <-]. exists vs. by rewrite lookup_insert_eq.
  - intros [= <- <-]. split_and!; [done | | done | done].
    intros k Hk1' _. by apply Hk1.
Qed.

(** The sessions, seen as the submissions of a store of their own, so that
    what is proved of one collection serves the other. *)
Lemma wf_sessions_as_submissions D :
  wf_sessions D =
  wf_submissions (mkDb [] (sessions D) [] (next_id (documents D)) []).
Proof. reflexivity. Qed.

(** What [save_session] leaves when it returns: the document with the
    returned ['_id'] is either the new one at the end of the collection, or
    the stored one, updated in place or left alone; and it agrees with the
    dereferenced mapping on every field of that mapping other than
    ['last_modified']. *)
Lemma save_session_inv session D oid D' :
  wf_sessions D = true →
  session_dict session !! "_id" = None →
  save_session session D = (Ok oid, D') →
  ∃ fresh s1 d i,
    dereference_session session (<["ags" := VStr AGS]> (session_dict session))
      (documents D) = (Ok fresh, s1) ∧
    oid = VOid i ∧ d !! "_id" = Some oid ∧
    find_one (field_is "_id" oid) (sessions D') = Some d ∧
    (∀ k v, fresh !! k = Some v → k ≠ "last_modified" → d !! k = Some v) ∧
    ((get_session "numeric_id" (session_numeric_id session) D = None ∧
      sessions D' = sessions D ++ [d]) ∨
     (∃ stored set,
        get_session "numeric_id" (session_numeric_id session) D = Some stored ∧
        d = set ∪ stored ∧
        sessions D' =
          update_first (field_is "_id" oid) (λ x, set ∪ x) (sessions D) ∧
        ∀ k, k ≠ "last_modified" →
             set !! k = Mongo.changed_fields stored fresh !! k)).
Proof.
  intros Hwf Hid. rewrite wf_sessions_as_submissions in Hwf.
  unfold Mongo.save_session, bind_s at 1, lift.
  destruct (dereference_session session _ (documents D)) as [[fresh|e] s1] eqn:E;
    [|done].
  destruct (dereference_session_inv _ _ _ _ _ E) as (Hnx & Hk & _ & _).
  assert (Hfid : fresh !! "_id" = None).
  { rewrite Hk by done. by rewrite lookup_insert_ne. }
  intros Hsave. exists fresh, s1.
  destruct (get_session "numeric_id" (session_numeric_id session) D)
    as [stored|] eqn:Hst.
  - unfold Mongo.get_session in Hst.
    destruct (find_one_by_id _ _ stored Hwf Hst) as (i & Hi & Hfi).
    cbn [submissions] in Hfi.
    unfold bind_s at 1 in Hsave.
    assert (Hlog : Mongo.log_session_updated verbose session stored
                     (mkDatabase s1 (sessions D))
                   = (Ok tt, mkDatabase s1 (sessions D))
                   ∨ ∃ e, Mongo.log_session_updated verbose session stored
                            (mkDatabase s1 (sessions D))
                          = (Err e, mkDatabase s1 (sessions D))).
    { unfold Mongo.log_session_updated, bind_s, getitem_s. rewrite Hi.
      destruct verbose; [|by left].
      unfold ret_s, raise_s. destruct (session_numeric_id session); eauto. }
    destruct Hlog as [Hlog|[e Hlog]]; rewrite Hlog in Hsave; [|done].
    unfold bind_s, getitem_s in Hsave. rewrite Hi in Hsave.
    destruct (bool_decide (Mongo.changed_fields stored fresh = ∅)) eqn:Ec;
      cbn [negb] in Hsave.
    + apply bool_decide_eq_true in Ec. unfold ret_s in Hsave.
      injection Hsave as <- <-. cbn [sessions].
      exists stored, i. split_and!; [done.. | |].
      * intros k v Hkv Hne.
        by apply (changed_fields_applied stored fresh k v VNone Hkv Hne).
      * right. exists stored, ∅. split_and!; [done | by rewrite (left_id_L ∅ (∪)) | |].
        -- apply find_one_split in Hfi as (l1 & l2 & Hl & Hq & Hn).
           rewrite Hl, update_first_middle by done. by rewrite (left_id_L ∅ (∪)).
        -- intros k _. by rewrite Ec, !lookup_empty.
    + destruct (fresh !! "last_modified") as [lm|] eqn:Hlm; [|done].
      unfold ret_s at 1 2 in Hsave. unfold update_session, ret_s in Hsave.
      cbv beta iota zeta in Hsave. injection Hsave as <- <-. cbn [sessions].
      exists (<["last_modified" := lm]> (Mongo.changed_fields stored fresh) ∪ stored), i.
      split_and!; [done | done | | | |].
      * rewrite lookup_union_r; [exact Hi|].
        rewrite lookup_insert_ne by done. by rewrite changed_fields_lookup, Hfid.
      * apply find_one_update_first; [done|].
        apply field_is_Some. left. rewrite lookup_union_r; [done|].
        rewrite lookup_insert_ne by done. by rewrite changed_fields_lookup, Hfid.
      * intros k v Hkv Hne.
        by apply (changed_fields_applied stored fresh k v lm Hkv Hne).
      * right. eexists stored, _. split_and!; [done.. |].
        intros k Hk'. by rewrite lookup_insert_ne.
  - unfold Mongo.insert_session in Hsave. rewrite Hfid in Hsave.
    injection Hsave as <- <-. cbn [sessions log next_id].
    exists (<["_id" := VOid (next_id s1)]> fresh), (next_id s1).
    split_and!; [done | done | by rewrite lookup_insert_eq | | |].
    + apply find_one_snoc.
      * intros a Ha.
        destruct (wf_submissions_id _ a Hwf Ha) as (j & Hj & Hlt).
        cbn [next_id] in Hlt.
        destruct (field_is "_id" (VOid (next_id s1)) a) eqn:Ef; [|done].
        apply (field_is_id a (VOid j)) in Ef; [|done].
        injection Ef as Ef. lia.
      * apply field_is_Some. left. by rewrite lookup_insert_eq.
    + intros k v Hkv _. rewrite lookup_insert_ne; [done|]. intros <-. congruence.
    + by left.
Qed.


(** X24: what [save_session] returns is a session that is found
    afterwards.  For a session whose [dict()] carries its [numeric_id] and
    no ['_id'], a call that returns leaves [session_exists] true for that
    [numeric_id], and the document found has the returned ['_id']. *)
Theorem save_session_then_exists session D oid D' :
  wf_sessions D = true →
  session_dict session !! "numeric_id" = Some (session_numeric_id session) →
  session_dict session !! "_id" = None →
  save_session session D = (Ok oid, D') →
  (∃ d, get_session "numeric_id" (session_numeric_id session) D' = Some d ∧
        d !! "_id" = Some oid) ∧
  session_exists (session_numeric_id session) D' = true.
Proof.
  intros Hwf Hnum Hid Hsave.
  destruct (save_session_inv _ _ _ _ Hwf Hid Hsave)
    as (fresh & s1 & d & i & Hderef & -> & Hd & _ & Hagree & Hcases).
  destruct (dereference_session_inv _ _ _ _ _ Hderef) as (_ & Hk & _ & _).
  assert (Hf_id : fresh !! "_id" = None).
  { rewrite Hk by done. by rewrite lookup_insert_ne. }
  assert (Hf_ags : fresh !! "ags" = Some (VStr AGS)).
  { rewrite Hk by done. by rewrite lookup_insert_eq. }
  assert (Hf_num : fresh !! "numeric_id" = Some (session_numeric_id session)).
  { rewrite Hk by done. by rewrite lookup_insert_ne. }
  assert (Hget : get_session "numeric_id" (session_numeric_id session) D' = Some d).
  { unfold Mongo.get_session in *.
    destruct Hcases as [(Hnone & Hsess)|(stored & set & Hsome & -> & Hsess & Hset)].
    - rewrite Hsess. apply find_one_snoc; [by apply find_one_None_iff|].
      apply andb_true_iff. split; apply field_is_Some; left; by apply Hagree.
    - rewrite Hsess. destruct (find_one_In _ _ _ Hsome) as [Hin Hq].
      apply andb_true_iff in Hwf as [_ Hu].
      apply update_keeps_lookup; [done | | done |].
      + rewrite lookup_union_r in Hd; [done|].
        rewrite Hset by done. by rewrite changed_fields_lookup, Hf_id.
      + apply andb_true_iff in Hq as [Hqa Hqk].
        apply (natural_key_kept AGS "numeric_id" _ stored fresh); [done.. |].
        intros k [->| ->]; by apply Hset. }
  split; [by exists d|].
  unfold Mongo.session_exists. by rewrite Hget, Hd.
Qed.

(** X25: with [verbose] set, the message of line 258 formats the session's
    [numeric_id] with ['%d'].  When the session is already stored and its
    [numeric_id] is not an integer, [save_session] therefore raises
    [TypeError] once the attachments and submissions have been saved, and
    the sessions collection is left as it was. *)
Theorem verbose_update_wants_number session D stored oid fresh s1 :
  verbose = true →
  get_session "numeric_id" (session_numeric_id session) D = Some stored →
  stored !! "_id" = Some oid →
  (∀ z, session_numeric_id session ≠ VInt z) →
  dereference_session session (<["ags" := VStr AGS]> (session_dict session))
    (documents D) = (Ok fresh, s1) →
  save_session session D = (Err TypeError, mkDatabase s1 (sessions D)).
Proof.
  intros Hv Hst Hid Hnum Hderef.
  unfold Mongo.save_session, bind_s at 1, lift. rewrite Hderef, Hst.
  unfold bind_s at 1, Mongo.log_session_updated, bind_s, getitem_s.
  rewrite Hv, Hid. unfold ret_s at 1.
  destruct (session_numeric_id session); try done. by destruct (Hnum z).
Qed.

End SessionsMore.

(** *** The lookups and round trips on the sample data *)

Section SynchroniserMoreExamples.
Import Mongo.

Lemma save_new_attachment_witness :
  let digest := λ c : string, c in
  let attachment := sample_attachment "hello" in
  get_object "07" "attachments" "identifier" (identifier attachment) empty = None ∧
  dict attachment !! "content" = Some (VStr "hello") ∧
  dict attachment !! "_id" = None ∧
  save_attachment "07" digest attachment empty =
    (Ok (VOid 1%N),
     mkDb [sample_stored] [] [mkFile 0%N 5 "hello" (VStr "f.pdf") "07"] 2%N
          [FsPut 0%N "hello" (VStr "f.pdf") "07";
           Insert "attachments" (delete "_id" sample_stored)]).
Proof.
  intros digest attachment.
  assert (H1 : get_object "07" "attachments" "identifier" (identifier attachment) empty
               = None) by reflexivity.
  assert (H2 : dict attachment !! "content" = Some (VStr "hello"))
    by (vm_compute; reflexivity).
  assert (H3 : dict attachment !! "_id" = None) by (vm_compute; reflexivity).
  split_and!; [done.. |].
  destruct (save_new_attachment "07" digest attachment empty (VStr "hello") H1 H2 H3)
    as (-> & _). vm_compute. reflexivity.
Defined.

Lemma depublished_never_stored_witness :
  let digest := λ c : string, c in
  let attachment := sample_attachment "hello!" in
  let f := mkFile 0%N 5 "hello" (VStr "f.pdf") "07" in
  let stored := <["depublication" := VTime 4]> sample_stored in
  let s := sample_db stored [f] in
  get_object "07" "attachments" "identifier" (identifier attachment) s = Some stored ∧
  is_Some (stored !! "depublication") ∧
  fs_files (snd (save_attachment "07" digest attachment s)) = [f] ∧
  puts (writes (snd (save_attachment "07" digest attachment s))) = [].
Proof.
  intros digest attachment f stored s.
  assert (H1 : get_object "07" "attachments" "identifier" (identifier attachment) s
               = Some stored) by (vm_compute; reflexivity).
  assert (H2 : is_Some (stored !! "depublication")) by (by exists (VTime 4)).
  split_and!; [done.. | |];
    apply (depublished_never_stored "07" digest attachment s stored H1 H2).
Defined.

Lemma file_not_dbref_asserts_witness :
  let digest := λ c : string, c in
  let attachment := sample_attachment "hello" in
  let stored := <["file" := VStr "f.pdf"]> sample_stored in
  let s := sample_db stored [] in
  get_object "07" "attachments" "identifier" (identifier attachment) s = Some stored ∧
  stored !! "file" = Some (VStr "f.pdf") ∧
  (∀ c i, VStr "f.pdf" ≠ VRef c i) ∧
  save_attachment "07" digest attachment s = (Err AssertionError, s).
Proof.
  intros digest attachment stored s.
  assert (H1 : get_object "07" "attachments" "identifier" (identifier attachment) s
               = Some stored) by (vm_compute; reflexivity).
  assert (H2 : stored !! "file" = Some (VStr "f.pdf")) by (vm_compute; reflexivity).
  assert (H3 : ∀ c i, VStr "f.pdf" ≠ VRef c i) by (intros c i; discriminate).
  split_and!; [done.. |].
  apply (file_not_dbref_asserts "07" digest attachment s stored (VStr "f.pdf") H1 H2 H3).
Defined.

Lemma missing_content_orphans_blob_witness :
  let digest := λ c : string, c in
  let attachment :=
    mkAttachment (VStr "a1") (VStr "f.pdf") "hello"
      (list_to_map [("identifier", VStr "a1"); ("last_modified", VTime 5)]) in
  get_object "07" "attachments" "identifier" (identifier attachment) empty = None ∧
  dict attachment !! "content" = None ∧
  save_attachment "07" digest attachment empty =
    (Err (KeyError "content"),
     mkDb [] [] [mkFile 0%N 5 "hello" (VStr "f.pdf") "07"] 1%N
          [FsPut 0%N "hello" (VStr "f.pdf") "07"]).
Proof.
  intros digest attachment.
  assert (H1 : get_object "07" "attachments" "identifier" (identifier attachment) empty
               = None) by reflexivity.
  assert (H2 : dict attachment !! "content" = None) by (vm_compute; reflexivity).
  split_and!; [done.. |].
  apply (missing_content_orphans_blob "07" digest attachment empty H1 H2).
Defined.

Lemma changed_content_updates_file_only_witness :
  let digest := λ c : string, c in
  let attachment := sample_attachment "hello!" in
  let f := mkFile 0%N 5 "hello" (VStr "f.pdf") "07" in
  let s := sample_db sample_stored [f] in
  get_object "07" "attachments" "identifier" (identifier attachment) s
    = Some sample_stored ∧
  sample_stored !! "file" = Some (VRef "fs.files" (VOid 0%N)) ∧
  files_find_one (VOid 0%N) (fs_files s) = Some f ∧
  (file_id f < next_id s)%N ∧
  file_differs digest f (content attachment) = true ∧
  sample_stored !! "depublication" = None ∧
  sample_stored !! "_id" = Some (VOid 1%N) ∧
  dict attachment !! "content" = Some (VStr "hello!") ∧
  dict attachment !! "last_modified" = Some (VTime 5) ∧
  changed_fields sample_stored
    (<["ags" := VStr "07"]> (delete "content" (delete "file" (dict attachment)))) = ∅ ∧
  ∃ s',
    save_attachment "07" digest attachment s = (Ok (VOid 1%N), s') ∧
    fs_files s' = [f; mkFile 2%N 6 "hello!" (VStr "f.pdf") "07"] ∧
    writes s' =
      [FsPut 2%N "hello!" (VStr "f.pdf") "07";
       Update "attachments" (VOid 1%N)
         (<["last_modified" := VTime 5]> {["file" := VRef "fs.files" (VOid 2%N)]})].
Proof.
  intros digest attachment f s.
  split_and!; [vm_compute; reflexivity.. |].
  apply (changed_content_updates_file_only "07" digest attachment s sample_stored
           "fs.files" (VOid 0%N) f (VStr "hello!") (VTime 5) (VOid 1%N));
    vm_compute; reflexivity.
Defined.

Lemma save_attachment_then_lookup_witness :
  let digest := λ c : string, c in
  let attachment := sample_attachment "hello!" in
  let f := mkFile 0%N 5 "hello" (VStr "f.pdf") "07" in
  let s := sample_db sample_stored [f] in
  let s' := snd (save_attachment "07" digest attachment s) in
  wf_attachments s = true ∧
  dict attachment !! "identifier" = Some (identifier attachment) ∧
  dict attachment !! "_id" = None ∧
  save_attachment "07" digest attachment s = (Ok (VOid 1%N), s') ∧
  get_object_id "07" "attachments" "identifier" (identifier attachment) s' = VOid 1%N ∧
  attachment_exists "07" (identifier attachment) s' = true.
Proof.
  intros digest attachment f s s'.
  assert (H1 : wf_attachments s = true) by (vm_compute; reflexivity).
  assert (H2 : dict attachment !! "identifier" = Some (identifier attachment))
    by (vm_compute; reflexivity).
  assert (H3 : dict attachment !! "_id" = None) by (vm_compute; reflexivity).
  assert (H4 : save_attachment "07" digest attachment s = (Ok (VOid 1%N), s'))
    by (vm_compute; reflexivity).
  split_and!; [done.. | |];
    apply (save_attachment_then_lookup "07" digest attachment s (VOid 1%N) s'
             H1 H2 H3 H4).
Defined.

Lemma save_submission_then_lookup_witness :
  let digest := λ c : string, c in
  let s := snd (save_submission "07" digest sample_child empty) in
  let s' := snd (save_submission "07" digest sample_parent s) in
  wf_submissions s = true ∧
  submission_dict sample_parent !! "numeric_id" = Some (numeric_id sample_parent) ∧
  submission_dict sample_parent !! "_id" = None ∧
  save_submission "07" digest sample_parent s = (Ok (VOid 3%N), s') ∧
  get_object_id "07" "submissions" "numeric_id" (numeric_id sample_parent) s'
    = VOid 3%N ∧
  submission_exists "07" (numeric_id sample_parent) s' = true.
Proof.
  intros digest s s'.
  assert (H1 : wf_submissions s = true) by (vm_compute; reflexivity).
  assert (H2 : submission_dict sample_parent !! "numeric_id"
               = Some (numeric_id sample_parent)) by (vm_compute; reflexivity).
  assert (H3 : submission_dict sample_parent !! "_id" = None)
    by (vm_compute; reflexivity).
  assert (H4 : save_submission "07" digest sample_parent s = (Ok (VOid 3%N), s'))
    by (vm_compute; reflexivity).
  split_and!; [done.. | |];
    apply (save_submission_then_lookup "07" digest sample_parent s (VOid 3%N) s'
             H1 H2 H3 H4).
Defined.



Lemma save_session_then_exists_witness :
  let digest := λ c : string, c in
  let D := snd (save_session "07" digest false sample_session (mkDatabase empty [])) in
  let D' := snd (save_session "07" digest true sample_session D) in
  wf_sessions D = true ∧
  session_dict sample_session !! "numeric_id"
    = Some (session_numeric_id sample_session) ∧
  session_dict sample_session !! "_id" = None ∧
  save_session "07" digest true sample_session D = (Ok (VOid 4%N), D') ∧
  (∃ d, get_session "07" "numeric_id" (session_numeric_id sample_session) D' = Some d ∧
        d !! "_id" = Some (VOid 4%N)) ∧
  session_exists "07" (session_numeric_id sample_session) D' = true.
Proof.
  intros digest D D'.
  assert (H1 : wf_sessions D = true) by (vm_compute; reflexivity).
  assert (H2 : session_dict sample_session !! "numeric_id"
               = Some (session_numeric_id sample_session)) by (vm_compute; reflexivity).
  assert (H3 : session_dict sample_session !! "_id" = None)
    by (vm_compute; reflexivity).
  assert (H4 : save_session "07" digest true sample_session D = (Ok (VOid 4%N), D'))
    by (vm_compute; reflexivity).
  split_and!; [done.. | |];
    apply (save_session_then_exists "07" digest true sample_session D (VOid 4%N) D'
             H1 H2 H3 H4).
Defined.

Lemma verbose_update_wants_number_witness :
  let digest := λ c : string, c in
  let session :=
    mkSession (VStr "30")
      (list_to_map [("numeric_id", VStr "30"); ("last_modified", VTime 9)])
      None None in
  let stored : gmap string value :=
    list_to_map [("_id", VOid 0%N); ("ags", VStr "07"); ("numeric_id", VStr "30");
                 ("last_modified", VTime 8)] in
  let s := mkDb [] [] [] 1%N [] in
  let D := mkDatabase s [stored] in
  let fresh := <["ags" := VStr "07"]> (session_dict session) in
  true = true ∧
  get_session "07" "numeric_id" (session_numeric_id session) D = Some stored ∧
  stored !! "_id" = Some (VOid 0%N) ∧
  (∀ z, session_numeric_id session ≠ VInt z) ∧
  dereference_session "07" digest session fresh (documents D) = (Ok fresh, s) ∧
  save_session "07" digest true session D = (Err TypeError, D) ∧
  fst (save_session "07" digest false session D) = Ok (VOid 0%N).
Proof.
  intros digest session stored s D fresh.
  assert (H1 : get_session "07" "numeric_id" (session_numeric_id session) D
               = Some stored) by (vm_compute; reflexivity).
  assert (H2 : stored !! "_id" = Some (VOid 0%N)) by (vm_compute; reflexivity).
  assert (H3 : ∀ z, session_numeric_id session ≠ VInt z) by (intros z; discriminate).
  assert (H4 : dereference_session "07" digest session fresh (documents D)
               = (Ok fresh, s)) by reflexivity.
  split_and!; [done.. | | vm_compute; reflexivity].
  apply (verbose_update_wants_number "07" digest true session D stored (VOid 0%N)
           fresh s eq_refl H1 H2 H3 H4).
Defined.

Lemma resync_submission_writes_nothing_witness :
  let digest := λ c : string, c in
  let s1 := snd (save_submission "07" digest sample_child empty) in
  wf_submissions empty = true ∧
  submission_dict sample_child !! "numeric_id" = Some (numeric_id sample_child) ∧
  submission_dict sample_child !! "_id" = None ∧
  submission_attachments sample_child = None ∧
  (∀ items n,
     submission_dict sample_child !! "superordinate" = Some (VDict items) →
     dict_get "numeric_id" items = Some n → n ≠ numeric_id sample_child) ∧
  save_submission "07" digest sample_child empty = (Ok (VOid 0%N), s1) ∧
  writes s1 = [Insert "submissions"
                 (<["ags" := VStr "07"]> (submission_dict sample_child))] ∧
  save_submission "07" digest sample_child s1 = (Ok (VOid 0%N), s1).
Proof.
  intros digest s1.
  assert (H1 : wf_submissions empty = true) by reflexivity.
  assert (H2 : submission_dict sample_child !! "numeric_id"
               = Some (numeric_id sample_child)) by (vm_compute; reflexivity).
  assert (H3 : submission_dict sample_child !! "_id" = None)
    by (vm_compute; reflexivity).
  assert (H4 : submission_attachments sample_child = None) by reflexivity.
  assert (H5 : ∀ items n,
     submission_dict sample_child !! "superordinate" = Some (VDict items) →
     dict_get "numeric_id" items = Some n → n ≠ numeric_id sample_child).
  { intros items n Hs Hn. vm_compute in Hs. injection Hs as <-.
    vm_compute in Hn. injection Hn as <-. discriminate. }
  assert (H6 : save_submission "07" digest sample_child empty = (Ok (VOid 0%N), s1))
    by (vm_compute; reflexivity).
  split_and!; [done.. | vm_compute; reflexivity |].
  apply (resync_submission_writes_nothing "07" digest sample_child empty (VOid 0%N) s1
           H1 H2 H3 H4 H5 H6).
Defined.

End SynchroniserMoreExamples.
